(** * Provisioning of a Linux VM through remote commands

    A shallow embedding of the three revisions of the Go program kept in
    this repository:

    - [MainGo]     : src/main.go, first document (lines 1-173), the revision
                     with [runOrderedCommands] and [runIndependentCommands];
    - [MainGoPrev] : src/main.go, second document (lines 174-270), the
                     earliest revision, one inline chain;
    - [Part000]    : src/unnamed/part_000, the revision in between, an inline
                     chain followed by an inline independent loop.

    The Pulumi SDK is external.  It is modelled by what the program can
    observe of it: every call of [remote.NewCommand] is recorded, in order,
    together with what the call returned, and the answer of the SDK is an
    arbitrary function of the history and of the registration. *)

From Stdlib Require Import String Ascii List Bool Arith ZArith Lia.
Import ListNotations.
Local Open Scope string_scope.

(** ** Fragments of the Go runtime *)

Module Go.

(** A Go [error], as the two concrete types the program meets:
    [*errors.errorString] (a message) and [*fmt.wrapError] (the message
    built by a format with the [%w] verb, and the error it wraps). *)
Inductive error : Type :=
| errorString (s : string)
| wrapError (msg : string) (err : error).

(** [err.Error()] *)
Definition Error (e : error) : string :=
  match e with
  | errorString s => s
  | wrapError msg _ => msg
  end.

(** [errors.Unwrap(err)] *)
Definition Unwrap (e : error) : option error :=
  match e with
  | errorString _ => None
  | wrapError _ err => Some err
  end.

(** [fmt.Errorf] with a format that has no [%w] verb; [text] is the
    formatted message. *)
Definition Errorf (text : string) : error := errorString text.

(** [fmt.Errorf] with a format that ends in [%w]; [prefix] is the formatted
    text before the verb. *)
Definition Errorf_w (prefix : string) (err : error) : error :=
  wrapError (prefix ++ Error err) err.

(** [strings.Join(elems, sep)] *)
Fixpoint Join (elems : list string) (sep : string) : string :=
  match elems with
  | [] => EmptyString
  | s :: rest =>
      match rest with
      | [] => s
      | _ :: _ => s ++ sep ++ Join rest sep
      end
  end.

(** The double quote and the line feed, which the Go literals escape. *)
Definition dquote : string := String (ascii_of_nat 34) EmptyString.
Definition newline : string := String (ascii_of_nat 10) EmptyString.

End Go.

Import Go.

(** The anonymous [struct { name string; cmd string }] of the command
    tables. *)
Record command : Type := Command { name : string; cmd : string }.

(** ** The part of the Pulumi SDK the program uses *)

Module Pulumi.

(** [*remote.Command]: nil, or a reference to a registered command. *)
Inductive CommandPtr : Type :=
| NilCommand
| CommandRef (id : nat).

(** The interface [pulumi.Resource]: [None] is the nil interface; a
    [*remote.Command] stored in it (even a nil pointer) is [Some]. *)
Definition Resource : Type := option CommandPtr.

(** [pulumi.ResourceOption]; the program only builds [pulumi.DependsOn]. *)
Inductive ResourceOption : Type :=
| DependsOn (resources : list Resource).

Record ConnectionArgs : Type := {
  Host : string;
  Port : Z;
  User : string;
  PrivateKey : string
}.

(** [remote.CommandArgs]; a [Triggers] field left out is the empty list. *)
Record CommandArgs : Type := {
  Connection : ConnectionArgs;
  Create : string;
  Triggers : list string
}.

(** The arguments of one call [remote.NewCommand(ctx, name, args, opts...)]. *)
Record Registration : Type := {
  reg_name : string;
  reg_args : CommandArgs;
  reg_opts : list ResourceOption
}.

(** One call of [remote.NewCommand] with the pair it returned. *)
Record Call : Type := {
  call_reg : Registration;
  call_result : CommandPtr;
  call_err : option error
}.

(** What the program writes: [ctx.Log.Info], [ctx.Log.Error], [fmt.Printf]. *)
Inductive Output : Type :=
| LogInfo (msg : string)
| LogError (msg : string)
| Stdout (msg : string).

(** The state behind [*pulumi.Context], oldest entry first. *)
Record Context : Type := {
  calls : list Call;
  output : list Output
}.

Definition emptyContext : Context := {| calls := []; output := [] |}.

(** The SDK's answer to a registration, given the calls made so far. *)
Definition Engine : Type := list Call -> Registration -> CommandPtr * option error.

(** Computations over the context. *)
Definition M (A : Type) : Type := Context -> A * Context.

Definition ret {A : Type} (a : A) : M A := fun ctx => (a, ctx).

Definition bind {A B : Type} (m : M A) (k : A -> M B) : M B :=
  fun ctx => let (a, ctx') := m ctx in k a ctx'.

Definition Log_Info (msg : string) : M unit :=
  fun ctx => (tt, {| calls := calls ctx; output := output ctx ++ [LogInfo msg] |}).

Definition Log_Error (msg : string) : M unit :=
  fun ctx => (tt, {| calls := calls ctx; output := output ctx ++ [LogError msg] |}).

Definition Printf (msg : string) : M unit :=
  fun ctx => (tt, {| calls := calls ctx; output := output ctx ++ [Stdout msg] |}).

Definition NewCommand (sdk : Engine) (resourceName : string) (args : CommandArgs)
    (opts : list ResourceOption) : M (CommandPtr * option error) :=
  fun ctx =>
    let reg := {| reg_name := resourceName; reg_args := args; reg_opts := opts |} in
    let answer := sdk (calls ctx) reg in
    (answer,
     {| calls := calls ctx ++ [{| call_reg := reg;
                                  call_result := fst answer;
                                  call_err := snd answer |}];
        output := output ctx |}).

End Pulumi.

Import Pulumi.

Declare Scope go_scope.
Delimit Scope go_scope with go.
Notation "x <- m ;; k" := (bind m (fun x => k))
  (at level 61, m at next level, right associativity) : go_scope.
Notation "m ;; k" := (bind m (fun _ => k))
  (at level 61, right associativity) : go_scope.
Local Open Scope go_scope.

(** The distribution identifiers the [switch] statements name. *)
Definition supported (distribution : string) : bool :=
  (distribution =? "fedora") || (distribution =? "ubuntu") || (distribution =? "debian").

(** ** src/main.go, first document *)

Module MainGo.

Definition commonPackages : string :=
  "bpftrace clang cmake curl gcc gdb git less llvm man-db mold pkgconf sysstat zsh".
Definition cargoPackages : string := "bat csvlens hexyl hyperfine xsv".

Definition installCmd (distribution : string) : string * option error :=
  if distribution =? "fedora" then ("sudo dnf install -y", None)
  else if (distribution =? "ubuntu") || (distribution =? "debian")
  then ("sudo apt-get install -y", None)
  else (EmptyString, Some (Errorf ("unsupported distribution: " ++ distribution))).

Definition updateCmd (distribution : string) : string * option error :=
  if distribution =? "fedora" then ("sudo dnf update -y", None)
  else if (distribution =? "ubuntu") || (distribution =? "debian")
  then ("sudo apt-get update && sudo apt-get dist-upgrade -y", None)
  else (EmptyString, Some (Errorf ("unsupported distribution: " ++ distribution))).

Definition extraPackagesForDistro (distribution : string) : list string :=
  if distribution =? "fedora"
  then ["fedora-packager"; "fedora-review"; "gcc-c++"; "ninja"; "perf"]
  else if (distribution =? "ubuntu") || (distribution =? "debian")
  then ["g++"; "linux-tools-virtual"; "ninja-build"]
  else [].

(** The arguments both executors build for a command. *)
Definition commandArgs (connection : ConnectionArgs) (c : command) : CommandArgs :=
  {| Connection := connection; Create := cmd c; Triggers := [cmd c] |}.

Fixpoint runIndependentCommands (sdk : Engine) (commands : list command)
    (connection : ConnectionArgs) : M (option error) :=
  match commands with
  | [] => ret None
  | c :: rest =>
      Log_Info (name c ++ ": '" ++ cmd c ++ "'") ;;
      r <- NewCommand sdk (name c) (commandArgs connection c) [] ;;
      match snd r with
      | Some err => ret (Some (Errorf_w ("failed to run command '" ++ cmd c ++ "': ") err))
      | None => runIndependentCommands sdk rest connection
      end
  end.

(** The [for] loop of [runOrderedCommands], with the local [lastResource] as
    an argument; it also yields the value [lastResource] holds when the loop
    is left. *)
Fixpoint orderedLoop (sdk : Engine) (lastResource : Resource) (commands : list command)
    (connection : ConnectionArgs) : M (option error * Resource) :=
  match commands with
  | [] => ret (None, lastResource)
  | c :: rest =>
      Log_Info (name c ++ ": '" ++ cmd c ++ "'") ;;
      r <- NewCommand sdk (name c) (commandArgs connection c) [DependsOn [lastResource]] ;;
      match snd r with
      | Some err =>
          ret (Some (Errorf_w ("failed to run command '" ++ cmd c ++ "': ") err), lastResource)
      | None => orderedLoop sdk (Some (fst r)) rest connection
      end
  end.

Definition runOrderedCommands (sdk : Engine) (update_cmd : CommandPtr)
    (commands : list command) (connection : ConnectionArgs) : M (option error) :=
  r <- orderedLoop sdk (Some update_cmd) commands connection ;;
  ret (fst r).

Definition setup_commands (installCmd' : string) (extraPackages : list string) : list command :=
  [ Command "install-packages"
      (installCmd' ++ " " ++ commonPackages ++ " " ++ Join extraPackages " ");
    Command "install-cargo"
      "rm -rf ~/.cargo ~/.rustup && curl -LsSf https://sh.rustup.rs | sh -s -- -y --no-modify-path";
    Command "install-cargo-packages" ("~/.cargo/bin/cargo install " ++ cargoPackages);
    Command "setup-config"
      "rm -rf ~/github/config && git clone https://github.com/ismail/config.git ~/github/config && ~/github/config/setup.sh";
    Command "setup-hacks"
      "rm -rf ~/github/hacks && git clone https://github.com/ismail/hacks.git ~/github/hacks && ~/github/hacks/setup.sh";
    Command "set-zlogin"
      ("echo 'path+=(~/.local/bin ~/.cargo/bin $path)" ++ newline ++ newline
       ++ "eval " ++ dquote ++ "$(starship init zsh)" ++ dquote ++ "' > ~/.zlogin");
    Command "use-zsh" "sudo chsh -s /bin/zsh ismail" ].

Definition extra_commands : list command :=
  [ Command "install-starship" "curl -sS https://starship.rs/install.sh | sudo sh -s -- -y";
    Command "install-uv" "curl -LsSf https://astral.sh/uv/install.sh | UV_NO_MODIFY_PATH=1 sh";
    Command "starship-disable-container"
      ("mkdir -p ~/.config && echo " ++ dquote ++ "[container]" ++ newline
       ++ "disabled = true" ++ dquote ++ " > ~/.config/starship.toml") ].

(** The function given to [pulumi.Run].  [distribution] and [sshUsername]
    are the two required configuration values, [keyFile] is what
    [os.ReadFile] returned for the private key, [now] is
    [time.Now().Format(time.RFC3339)]. *)
Definition main (sdk : Engine) (distribution sshUsername : string)
    (keyFile : string * option error) (now : string) : M (option error) :=
  match snd keyFile with
  | Some err => ret (Some (Errorf_w "failed to read private key: " err))
  | None =>
      let connection :=
        {| Host := "localhost"; Port := 32222%Z; User := sshUsername;
           PrivateKey := fst keyFile |} in
      let i := installCmd distribution in
      match snd i with
      | Some err => ret (Some (Errorf_w "failed to get install command: " err))
      | None =>
          let u := updateCmd distribution in
          match snd u with
          | Some err => ret (Some (Errorf_w "failed to get update command: " err))
          | None =>
              let extraPackages := extraPackagesForDistro distribution in
              b <- NewCommand sdk "update-system"
                     {| Connection := connection; Create := fst u; Triggers := [now] |} [] ;;
              match snd b with
              | Some err => ret (Some (Errorf_w "failed to update the system: " err))
              | None =>
                  e1 <- runOrderedCommands sdk (fst b)
                          (setup_commands (fst i) extraPackages) connection ;;
                  match e1 with
                  | Some err =>
                      Log_Error ("Failed to run base commands: " ++ Error err) ;;
                      ret (Some err)
                  | None =>
                      e2 <- runIndependentCommands sdk extra_commands connection ;;
                      match e2 with
                      | Some err =>
                          Log_Error ("Failed to run setup commands: " ++ Error err) ;;
                          ret (Some err)
                      | None =>
                          Log_Info (distribution ++ " setup complete.") ;;
                          ret None
                      end
                  end
              end
          end
      end
  end.

End MainGo.

(** ** src/main.go, second document *)

Module MainGoPrev.

Definition installCmd (distribution : string) : string * option error :=
  if distribution =? "fedora" then ("dnf install -y", None)
  else if (distribution =? "ubuntu") || (distribution =? "debian")
  then ("apt-get install -y", None)
  else (EmptyString, Some (Errorf ("unsupported distribution: " ++ distribution))).

Definition updateCmd (distribution : string) : string * option error :=
  if distribution =? "fedora" then ("sudo dnf update -y", None)
  else if (distribution =? "ubuntu") || (distribution =? "debian")
  then ("sudo bash -c " ++ dquote ++ "apt-get update && apt-get dist-upgrade -y" ++ dquote, None)
  else (EmptyString, Some (Errorf ("unsupported distribution: " ++ distribution))).

Definition commands (installCmd' updateCmd' : string) : list command :=
  [ Command "update-system" updateCmd';
    Command "install-packages" ("sudo " ++ installCmd' ++ " git zsh");
    Command "setup-home" "rm -rf $HOME/github && mkdir $HOME/github";
    Command "setup-config" "git clone https://github.com/ismail/config.git $HOME/github/config";
    Command "setup-hacks" "git clone https://github.com/ismail/hacks.git $HOME/github/hacks";
    Command "run-setup"
      "cd $HOME/github/config && ./setup.sh && cd $HOME/github/hacks && ./setup.sh";
    Command "use-zsh" "sudo chsh -s /bin/zsh ismail";
    Command "install-starship" "curl -sS https://starship.rs/install.sh | sudo sh -s -- -y";
    Command "starship-disable-container"
      ("mkdir -p ~/.config && echo " ++ dquote ++ "[container]" ++ newline
       ++ "disabled = true" ++ dquote ++ " > ~/.config/starship.toml");
    Command "use-starship"
      ("echo 'eval " ++ dquote ++ "$(starship init zsh)" ++ dquote ++ "' > ~/.zshrc-local") ].

(** The [for] loop of [main].  The result is [Some r] when the loop was left
    by a [return r] of [main], and [None] when it ran to its end. *)
Fixpoint chainLoop (sdk : Engine) (lastResource : Resource) (cmds : list command)
    (connection : ConnectionArgs) : M (option (option error)) :=
  match cmds with
  | [] => ret None
  | c :: rest =>
      Log_Info ("Running command: '" ++ cmd c ++ "'") ;;
      let opts :=
        match lastResource with
        | Some _ => [DependsOn [lastResource]]
        | None => []
        end in
      r <- NewCommand sdk (name c)
             {| Connection := connection; Create := cmd c; Triggers := [] |} opts ;;
      match snd r with
      | Some err =>
          Printf ("failed to run command '" ++ cmd c ++ "': " ++ Error err) ;;
          ret (Some None)
      | None => chainLoop sdk (Some (fst r)) rest connection
      end
  end.

(** The errors of [installCmd] and [updateCmd] are assigned to [err] and
    overwritten by the next assignment without being read. *)
Definition main (sdk : Engine) (distribution sshUsername : string)
    (keyFile : string * option error) : M (option error) :=
  let i := installCmd distribution in
  let u := updateCmd distribution in
  match snd keyFile with
  | Some err => ret (Some (Errorf_w "failed to read private key: " err))
  | None =>
      let connection :=
        {| Host := "localhost"; Port := 32222%Z; User := sshUsername;
           PrivateKey := fst keyFile |} in
      left <- chainLoop sdk None (commands (fst i) (fst u)) connection ;;
      match left with
      | Some r => ret r
      | None =>
          Log_Info "Packages installed successfully!" ;;
          ret None
      end
  end.

End MainGoPrev.

(** ** src/unnamed/part_000 *)

Module Part000.

Definition commonPackages : string := "curl less git man-db zsh".

Definition installCmd (distribution : string) : string * option error :=
  if distribution =? "fedora" then ("dnf install -y", None)
  else if (distribution =? "ubuntu") || (distribution =? "debian")
  then ("apt-get install -y", None)
  else (EmptyString, Some (Errorf ("unsupported distribution: " ++ distribution))).

Definition updateCmd (distribution : string) : string * option error :=
  if distribution =? "fedora" then ("sudo dnf update -y", None)
  else if (distribution =? "ubuntu") || (distribution =? "debian")
  then ("sudo bash -c " ++ dquote ++ "apt-get update && apt-get dist-upgrade -y" ++ dquote, None)
  else (EmptyString, Some (Errorf ("unsupported distribution: " ++ distribution))).

(** The [default] case returns the nil slice. *)
Definition extraPackagesForDistro (distribution : string) : list string :=
  if distribution =? "fedora" then ["fedora-packager"; "fedora-review"] else [].

Definition base_commands (installCmd' updateCmd' : string) (extraPackages : list string)
    : list command :=
  [ Command "update-system" updateCmd';
    Command "install-packages"
      ("sudo " ++ installCmd' ++ " " ++ commonPackages ++ " " ++ Join extraPackages " ");
    Command "use-zsh" "sudo chsh -s /bin/zsh ismail" ].

Definition commands : list command :=
  [ Command "install-cargo"
      "curl --proto '=https' --tlsv1.2 -sSf https://sh.rustup.rs | sh -s -- -y --no-modify-path";
    Command "setup-config"
      "rm -rf ~/github/config && git clone https://github.com/ismail/config.git ~/github/config && ~/github/config/setup.sh";
    Command "setup-hacks"
      "rm -rf ~/github/hacks && git clone https://github.com/ismail/hacks.git ~/github/hacks && ~/github/hacks/setup.sh";
    Command "install-starship" "curl -sS https://starship.rs/install.sh | sudo sh -s -- -y";
    Command "starship-disable-container"
      ("mkdir -p ~/.config && echo " ++ dquote ++ "[container]" ++ newline
       ++ "disabled = true" ++ dquote ++ " > ~/.config/starship.toml");
    Command "set-zlogin"
      ("echo 'path+=(~/.cargo/bin $path)" ++ newline ++ newline
       ++ "eval " ++ dquote ++ "$(starship init zsh)" ++ dquote ++ "' > ~/.zlogin") ].

Definition commandArgs (connection : ConnectionArgs) (c : command) : CommandArgs :=
  {| Connection := connection; Create := cmd c; Triggers := [cmd c] |}.

(** The first [for] loop of [main] (over [base_commands]); [Some r] when it
    was left by a [return r] of [main], [None] when it ran to its end. *)
Fixpoint chainLoop (sdk : Engine) (lastResource : Resource) (cmds : list command)
    (connection : ConnectionArgs) : M (option (option error)) :=
  match cmds with
  | [] => ret None
  | c :: rest =>
      Log_Info ("Running command: '" ++ cmd c ++ "'") ;;
      let opts :=
        match lastResource with
        | Some _ => [DependsOn [lastResource]]
        | None => []
        end in
      r <- NewCommand sdk (name c) (commandArgs connection c) opts ;;
      match snd r with
      | Some err =>
          Printf ("failed to run command '" ++ cmd c ++ "': " ++ Error err) ;;
          ret (Some None)
      | None => chainLoop sdk (Some (fst r)) rest connection
      end
  end.

(** The second [for] loop of [main] (over [commands]), same convention. *)
Fixpoint independentLoop (sdk : Engine) (cmds : list command)
    (connection : ConnectionArgs) : M (option (option error)) :=
  match cmds with
  | [] => ret None
  | c :: rest =>
      Log_Info ("Running command: '" ++ cmd c ++ "'") ;;
      r <- NewCommand sdk (name c) (commandArgs connection c) [] ;;
      match snd r with
      | Some err =>
          ret (Some (Some (Errorf_w ("failed to run command " ++ name c ++ ": ") err)))
      | None => independentLoop sdk rest connection
      end
  end.

Definition main (sdk : Engine) (distribution sshUsername : string)
    (keyFile : string * option error) : M (option error) :=
  match snd keyFile with
  | Some err => ret (Some (Errorf_w "failed to read private key: " err))
  | None =>
      let connection :=
        {| Host := "localhost"; Port := 32222%Z; User := sshUsername;
           PrivateKey := fst keyFile |} in
      let i := installCmd distribution in
      match snd i with
      | Some err => ret (Some (Errorf_w "failed to get install command: " err))
      | None =>
          let u := updateCmd distribution in
          match snd u with
          | Some err => ret (Some (Errorf_w "failed to get update command: " err))
          | None =>
              let extraPackages := extraPackagesForDistro distribution in
              left1 <- chainLoop sdk None
                         (base_commands (fst i) (fst u) extraPackages) connection ;;
              match left1 with
              | Some r => ret r
              | None =>
                  left2 <- independentLoop sdk commands connection ;;
                  match left2 with
                  | Some r => ret r
                  | None =>
                      Log_Info (distribution ++ " setup complete.") ;;
                      ret None
                  end
              end
          end
      end
  end.

End Part000.

(** ** Engines used to run the programs on concrete inputs *)

(** An SDK that accepts every registration and hands out references
    numbered by the position of the call. *)
Definition acceptAll : Engine :=
  fun history _ => (CommandRef (length history), None).

(** An SDK that refuses every registration. *)
Definition refuseAll : Engine :=
  fun _ _ => (NilCommand, Some (errorString "ssh: connect to host localhost port 32222: connection refused")).

(** An SDK that accepts the first [n] registrations and refuses the rest. *)
Definition refuseFrom (n : nat) : Engine :=
  fun history reg => if Nat.ltb (length history) n then acceptAll history reg else refuseAll history reg.

(** The calls [ctx'] holds beyond those of [ctx]. *)
Definition newCalls (ctx ctx' : Context) : list Call :=
  skipn (length (calls ctx)) (calls ctx').

(** ** Vocabulary of the statements *)

(** The registration the independent-set executor builds for [c]. *)
Definition independentRegistration (connection : ConnectionArgs) (c : command) : Registration :=
  {| reg_name := name c; reg_args := MainGo.commandArgs connection c; reg_opts := [] |}.

(** The registration the chain executor builds for [c] when [lastResource]
    holds [previous]. *)
Definition chainRegistration (connection : ConnectionArgs) (previous : Resource) (c : command)
    : Registration :=
  {| reg_name := name c; reg_args := MainGo.commandArgs connection c;
     reg_opts := [DependsOn [previous]] |}.

(** The resource the [i]-th call of a run of calls [new] has before it: the
    anchor for the first call, and for every later call what the call just
    before it returned. *)
Definition predecessor (anchor : Resource) (new : list Call) (i : nat) : Resource :=
  match i with
  | 0 => anchor
  | S j => option_map call_result (nth_error new j)
  end.

(** The call [NewCommand] records for a registration. *)
Definition callOf (sdk : Engine) (history : list Call) (reg : Registration) : Call :=
  {| call_reg := reg;
     call_result := fst (sdk history reg);
     call_err := snd (sdk history reg) |}.

(** The error both executors of [MainGo] return for a refused command. *)
Definition commandFailure (c : command) (err : error) : error :=
  Errorf_w ("failed to run command '" ++ cmd c ++ "': ") err.

(** ** Runs of a loop over a command table

    One run of a [for] loop over a command table, as the calls it makes:
    the loop registers the commands in order; a refused registration ends
    it with [failed c err]; at the end of the table the result is
    [finished].  [regOf previous c] is the registration built for [c] when
    the value carried from one iteration to the next is [previous]. *)

Section LoopRunDefinition.

Context {R : Type}.
Variable regOf : Resource -> command -> Registration.
Variable failed : command -> error -> R.
Variable finished : R.

Inductive LoopRun : Resource -> list command -> list Call -> R -> Prop :=
| LoopRun_end (last : Resource) :
    LoopRun last [] [] finished
| LoopRun_fail (last : Resource) (c : command) (rest : list command)
    (call : Call) (err : error) :
    call_reg call = regOf last c ->
    call_err call = Some err ->
    LoopRun last (c :: rest) [call] (failed c err)
| LoopRun_next (last : Resource) (c : command) (rest : list command)
    (call : Call) (new : list Call) (result : R) :
    call_reg call = regOf last c ->
    call_err call = None ->
    LoopRun (Some (call_result call)) rest new result ->
    LoopRun last (c :: rest) (call :: new) result.

End LoopRunDefinition.

(** Registrations of the inline loops of the two earlier revisions. *)
Definition guardedOpts (previous : Resource) : list ResourceOption :=
  match previous with
  | Some _ => [DependsOn [previous]]
  | None => []
  end.

Definition part000ChainRegistration (connection : ConnectionArgs) (previous : Resource)
    (c : command) : Registration :=
  {| reg_name := name c; reg_args := Part000.commandArgs connection c;
     reg_opts := guardedOpts previous |}.

Definition part000IndependentRegistration (connection : ConnectionArgs) (c : command)
    : Registration :=
  {| reg_name := name c; reg_args := Part000.commandArgs connection c; reg_opts := [] |}.

Definition prevChainRegistration (connection : ConnectionArgs) (previous : Resource)
    (c : command) : Registration :=
  {| reg_name := name c;
     reg_args := {| Connection := connection; Create := cmd c; Triggers := [] |};
     reg_opts := guardedOpts previous |}.

(** The error the independent loop of [Part000.main] returns. *)
Definition part000CommandFailure (c : command) (err : error) : error :=
  Errorf_w ("failed to run command " ++ name c ++ ": ") err.

(** The error of the [default] case of the two [switch] statements. *)
Definition unsupportedDistribution (d : string) : error :=
  errorString ("unsupported distribution: " ++ d).

(** The connection [main] builds in all three revisions. *)
Definition connectionOf (sshUsername key : string) : ConnectionArgs :=
  {| Host := "localhost"; Port := 32222%Z; User := sshUsername; PrivateKey := key |}.

(** The registration of the update-system command in main.go. *)
Definition updateSystemRegistration (d sshUsername key now : string) : Registration :=
  {| reg_name := "update-system";
     reg_args := {| Connection := connectionOf sshUsername key;
                    Create := fst (MainGo.updateCmd d);
                    Triggers := [now] |};
     reg_opts := [] |}.

(** A run of [main] of main.go that got as far as registering: the
    update-system call [first], then the calls [new1] of the chain and the
    calls [new2] of the independent set. *)
Definition MainRun (d sshUsername key now : string) (result : option error)
    (all : list Call) : Prop :=
  exists first new1 new2 r1,
    all = first :: (new1 ++ new2)%list /\
    call_reg first = updateSystemRegistration d sshUsername key now /\
    match call_err first with
    | Some err =>
        new1 = [] /\ new2 = [] /\
        result = Some (Errorf_w "failed to update the system: " err)
    | None =>
        LoopRun (chainRegistration (connectionOf sshUsername key))
                (fun c err => Some (commandFailure c err)) None
                (Some (call_result first))
                (MainGo.setup_commands (fst (MainGo.installCmd d))
                                       (MainGo.extraPackagesForDistro d))
                new1 r1 /\
        match r1 with
        | Some err => new2 = [] /\ result = Some err
        | None =>
            LoopRun (fun _ => independentRegistration (connectionOf sshUsername key))
                    (fun c err => Some (commandFailure c err)) None
                    None MainGo.extra_commands new2 result
        end
    end.

(** The shape of a run of [main] of part_000 that got as far as
    registering: the calls [new1] of the chain, then the calls [new2] of the
    independent loop. *)
Definition Part000Run (d sshUsername key : string) (result : option error)
    (all : list Call) : Prop :=
  exists new1 new2 r1,
    all = (new1 ++ new2)%list /\
    LoopRun (part000ChainRegistration (connectionOf sshUsername key))
            (fun _ _ => Some (@None error)) None None
            (Part000.base_commands (fst (Part000.installCmd d)) (fst (Part000.updateCmd d))
                                   (Part000.extraPackagesForDistro d))
            new1 r1 /\
    match r1 with
    | Some r => new2 = [] /\ result = r
    | None =>
        exists r2,
          LoopRun (fun _ => part000IndependentRegistration (connectionOf sshUsername key))
                  (fun c err => Some (Some (part000CommandFailure c err))) None
                  None Part000.commands new2 r2 /\
          result = match r2 with Some r => r | None => None end
    end.

(** The resource names of the three revisions, in the order [main]
    registers them. *)
Definition mainGoNames : list string :=
  "update-system" ::
  (map name (MainGo.setup_commands EmptyString []) ++ map name MainGo.extra_commands)%list.

Definition part000Names : list string :=
  (map name (Part000.base_commands EmptyString EmptyString []) ++ map name Part000.commands)%list.

Definition prevNames : list string :=
  map name (MainGoPrev.commands EmptyString EmptyString).

Definition namesOf (all : list Call) : list string :=
  map (fun call => reg_name (call_reg call)) all.

(** A registration whose only trigger is the text it runs. *)
Definition triggeredByText (reg : Registration) : Prop :=
  Triggers (reg_args reg) = [Create (reg_args reg)].

(** ** Vocabulary of the further properties *)

(** The line both executors of main.go log before they register [c]. *)
Definition infoLine (c : command) : Output :=
  LogInfo (name c ++ ": '" ++ cmd c ++ "'").

(** What the call just before call [i] of [all] returned, as the resource
    call [i] can depend on. *)
Definition previousResult (all : list Call) (i : nat) : Resource :=
  option_map call_result (nth_error all (i - 1)).

(** The options of call [i] in a run whose calls [lo], ..., [hi] each depend
    on the call before them and on nothing else, while no other call
    depends on anything. *)
Definition chainedOpts (lo hi : nat) (all : list Call) (i : nat) : list ResourceOption :=
  if Nat.leb lo i && Nat.leb i hi then [DependsOn [previousResult all i]] else [].


(** The line [main] of main.go ends its log with, given the result of the
    run and the number [n] of registrations it made: the closing Info line
    on success, an Error line when one of the two executors failed (calls 2
    to 8 belong to the chain, later ones to the independent set), and
    nothing when the run ended before the executors. *)
Definition closingLines (d : string) (result : option error) (n : nat) : list Output :=
  match result with
  | None => [LogInfo (d ++ " setup complete.")]
  | Some err =>
      if Nat.leb n 1 then []
      else if Nat.leb n 8 then [LogError ("Failed to run base commands: " ++ Error err)]
      else [LogError ("Failed to run setup commands: " ++ Error err)]
  end.

(** * Properties *)

Example run_main_fedora :
  map (fun c => reg_name (call_reg c))
      (calls (snd (MainGo.main acceptAll "fedora" "ismail" ("KEY", None) "2026-01-01T00:00:00Z" emptyContext)))
  = ["update-system"; "install-packages"; "install-cargo"; "install-cargo-packages";
     "setup-config"; "setup-hacks"; "set-zlogin"; "use-zsh";
     "install-starship"; "install-uv"; "starship-disable-container"].
Proof. reflexivity. Qed.

Example run_main_fedora_install_packages :
  option_map (fun c => Create (reg_args (call_reg c)))
    (nth_error (calls (snd (MainGo.main acceptAll "fedora" "ismail" ("KEY", None) "2026-01-01T00:00:00Z" emptyContext))) 1)
  = Some "sudo dnf install -y bpftrace clang cmake curl gcc gdb git less llvm man-db mold pkgconf sysstat zsh fedora-packager fedora-review gcc-c++ ninja perf".
Proof. reflexivity. Qed.

(** ** What a loop leaves in the context *)

Section Executors.

Variable sdk : Engine.
Variable connection : ConnectionArgs.

Lemma runIndependentCommands_cons (c : command) (rest : list command) (ctx : Context) :
  MainGo.runIndependentCommands sdk (c :: rest) connection ctx =
  let reg := independentRegistration connection c in
  let ctx1 := {| calls := calls ctx ++ [callOf sdk (calls ctx) reg];
                 output := output ctx ++ [LogInfo (name c ++ ": '" ++ cmd c ++ "'")] |} in
  match snd (sdk (calls ctx) reg) with
  | Some err => (Some (commandFailure c err), ctx1)
  | None => MainGo.runIndependentCommands sdk rest connection ctx1
  end.
Proof.
  cbv beta zeta delta [MainGo.runIndependentCommands bind Log_Info NewCommand
                       independentRegistration callOf commandFailure].
  cbn [calls output]. fold MainGo.runIndependentCommands.
  destruct (snd (sdk (calls ctx) _)); reflexivity.
Qed.

Lemma orderedLoop_cons (last : Resource) (c : command) (rest : list command) (ctx : Context) :
  MainGo.orderedLoop sdk last (c :: rest) connection ctx =
  let reg := chainRegistration connection last c in
  let ctx1 := {| calls := calls ctx ++ [callOf sdk (calls ctx) reg];
                 output := output ctx ++ [LogInfo (name c ++ ": '" ++ cmd c ++ "'")] |} in
  match snd (sdk (calls ctx) reg) with
  | Some err => ((Some (commandFailure c err), last), ctx1)
  | None => MainGo.orderedLoop sdk (Some (fst (sdk (calls ctx) reg))) rest connection ctx1
  end.
Proof.
  cbv beta zeta delta [MainGo.orderedLoop bind Log_Info NewCommand
                       chainRegistration callOf commandFailure].
  cbn [calls output]. fold MainGo.orderedLoop.
  destruct (snd (sdk (calls ctx) _)); reflexivity.
Qed.

End Executors.

Section LoopRuns.

Context {R : Type}.
Variable regOf : Resource -> command -> Registration.
Variable failed : command -> error -> R.
Variable finished : R.

Local Abbreviation Run := (LoopRun regOf failed finished).

Lemma LoopRun_fail' (last : Resource) (c : command) (rest : list command)
    (call : Call) (err : error) (r : R) :
  call_reg call = regOf last c ->
  call_err call = Some err ->
  r = failed c err ->
  Run last (c :: rest) [call] r.
Proof.
  intros Hreg Herr ->. now apply LoopRun_fail.
Qed.

Lemma LoopRun_length (last : Resource) (cmds : list command) (new : list Call) (r : R) :
  Run last cmds new r -> length new <= length cmds.
Proof.
  induction 1; simpl; lia.
Qed.

Lemma LoopRun_nth (last : Resource) (cmds : list command) (new : list Call) (r : R) :
  Run last cmds new r ->
  forall i call, nth_error new i = Some call ->
  exists c, nth_error cmds i = Some c /\ call_reg call = regOf (predecessor last new i) c.
Proof.
  induction 1 as [last | last c rest call0 err Hreg Herr
                  | last c rest call0 new result Hreg Herr Hrun IH]; intros i call Hi.
  - destruct i; discriminate.
  - destruct i as [|i]; simpl in Hi.
    + injection Hi as <-. exists c. split; [reflexivity | exact Hreg].
    + destruct i; discriminate.
  - destruct i as [|i]; simpl in Hi.
    + injection Hi as <-. exists c. split; [reflexivity | exact Hreg].
    + destruct (IH i call Hi) as (c' & Hc' & Hcall).
      exists c'. split; [exact Hc' |].
      rewrite Hcall. destruct i; reflexivity.
Qed.

Lemma LoopRun_failure (last : Resource) (cmds : list command) (new : list Call) (r : R) :
  Run last cmds new r ->
  forall i call err, nth_error new i = Some call -> call_err call = Some err ->
  length new = S i /\ exists c, nth_error cmds i = Some c /\ r = failed c err.
Proof.
  induction 1 as [last | last c rest call0 err0 Hreg Herr
                  | last c rest call0 new result Hreg Herr Hrun IH]; intros i call err Hi He.
  - destruct i; discriminate.
  - destruct i as [|i]; simpl in Hi.
    + injection Hi as <-. split; [reflexivity |].
      exists c. split; [reflexivity |]. congruence.
    + destruct i; discriminate.
  - destruct i as [|i]; simpl in Hi.
    + injection Hi as <-. congruence.
    + destruct (IH i call err Hi He) as (Hlen & c' & Hc' & Hr).
      split; [simpl; lia |]. exists c'. split; assumption.
Qed.

Lemma LoopRun_accepted_before (last : Resource) (cmds : list command) (new : list Call)
    (r : R) :
  Run last cmds new r ->
  forall i call err, nth_error new i = Some call -> call_err call = Some err ->
  forall j call', j < i -> nth_error new j = Some call' -> call_err call' = None.
Proof.
  intros Hrun i call err Hi He j call' Hj Hj'.
  destruct (call_err call') as [err' |] eqn:He'; [| reflexivity].
  destruct (LoopRun_failure _ _ _ _ Hrun i call err Hi He) as (Hlen & _).
  destruct (LoopRun_failure _ _ _ _ Hrun j call' err' Hj' He') as (Hlen' & _).
  lia.
Qed.

Lemma LoopRun_success (last : Resource) (cmds : list command) (new : list Call) (r : R) :
  Run last cmds new r ->
  Forall (fun call => call_err call = None) new ->
  length new = length cmds /\ r = finished.
Proof.
  induction 1 as [last | last c rest call0 err0 Hreg Herr
                  | last c rest call0 new result Hreg Herr Hrun IH]; intros Hall.
  - split; reflexivity.
  - inversion Hall; congruence.
  - inversion Hall as [| ? ? _ Hall']; subst.
    destruct (IH Hall') as (Hlen & Hr). split; [simpl; lia | exact Hr].
Qed.

Lemma LoopRun_finished (last : Resource) (cmds : list command) (new : list Call) (r : R) :
  (forall c err, failed c err <> finished) ->
  Run last cmds new r ->
  r = finished ->
  length new = length cmds /\ Forall (fun call => call_err call = None) new.
Proof.
  intros Hdiff. induction 1 as [last | last c rest call0 err0 Hreg Herr
                  | last c rest call0 new result Hreg Herr Hrun IH]; intros Hr.
  - split; constructor.
  - exfalso. exact (Hdiff _ _ Hr).
  - destruct (IH Hr) as (Hlen & Hall). split; [simpl; lia |].
    constructor; assumption.
Qed.

Lemma LoopRun_names (last : Resource) (cmds : list command) (new : list Call) (r : R) :
  (forall previous c, reg_name (regOf previous c) = name c) ->
  Run last cmds new r ->
  map (fun call => reg_name (call_reg call)) new = firstn (length new) (map name cmds).
Proof.
  intros Hname. induction 1 as [last | last c rest call0 err0 Hreg Herr
                  | last c rest call0 new result Hreg Herr Hrun IH]; simpl.
  - reflexivity.
  - rewrite Hreg, Hname. destruct (map name rest); reflexivity.
  - rewrite Hreg, Hname, IH. reflexivity.
Qed.

Lemma LoopRun_registrations (P : Registration -> Prop) (last : Resource)
    (cmds : list command) (new : list Call) (r : R) :
  (forall previous c, P (regOf previous c)) ->
  Run last cmds new r ->
  Forall (fun call => P (call_reg call)) new.
Proof.
  intros HP. induction 1 as [last | last c rest call0 err0 Hreg Herr
                  | last c rest call0 new result Hreg Herr Hrun IH].
  - constructor.
  - constructor; [rewrite Hreg; apply HP | constructor].
  - constructor; [rewrite Hreg; apply HP | exact IH].
Qed.

End LoopRuns.

(** ** The loops of the three revisions as runs *)

Section ExecutorRuns.

Variable sdk : Engine.
Variable connection : ConnectionArgs.

Lemma part000_chainLoop_cons (last : Resource) (c : command) (rest : list command)
    (ctx : Context) :
  Part000.chainLoop sdk last (c :: rest) connection ctx =
  let reg := part000ChainRegistration connection last c in
  let logged := (output ctx ++ [LogInfo ("Running command: '" ++ cmd c ++ "'")])%list in
  let called := (calls ctx ++ [callOf sdk (calls ctx) reg])%list in
  match snd (sdk (calls ctx) reg) with
  | Some err =>
      (Some None,
       {| calls := called;
          output := logged ++ [Stdout ("failed to run command '" ++ cmd c ++ "': " ++ Error err)] |})
  | None =>
      Part000.chainLoop sdk (Some (fst (sdk (calls ctx) reg))) rest connection
        {| calls := called; output := logged |}
  end.
Proof.
  cbv beta zeta delta [Part000.chainLoop bind Log_Info Printf NewCommand
                       part000ChainRegistration guardedOpts callOf].
  cbn [calls output]. fold Part000.chainLoop.
  destruct (snd (sdk (calls ctx) _)); reflexivity.
Qed.

Lemma part000_independentLoop_cons (c : command) (rest : list command) (ctx : Context) :
  Part000.independentLoop sdk (c :: rest) connection ctx =
  let reg := part000IndependentRegistration connection c in
  let ctx1 := {| calls := calls ctx ++ [callOf sdk (calls ctx) reg];
                 output := output ctx ++ [LogInfo ("Running command: '" ++ cmd c ++ "'")] |} in
  match snd (sdk (calls ctx) reg) with
  | Some err => (Some (Some (part000CommandFailure c err)), ctx1)
  | None => Part000.independentLoop sdk rest connection ctx1
  end.
Proof.
  cbv beta zeta delta [Part000.independentLoop bind Log_Info NewCommand
                       part000IndependentRegistration callOf part000CommandFailure].
  cbn [calls output]. fold Part000.independentLoop.
  destruct (snd (sdk (calls ctx) _)); reflexivity.
Qed.

Lemma prev_chainLoop_cons (last : Resource) (c : command) (rest : list command)
    (ctx : Context) :
  MainGoPrev.chainLoop sdk last (c :: rest) connection ctx =
  let reg := prevChainRegistration connection last c in
  let logged := (output ctx ++ [LogInfo ("Running command: '" ++ cmd c ++ "'")])%list in
  let called := (calls ctx ++ [callOf sdk (calls ctx) reg])%list in
  match snd (sdk (calls ctx) reg) with
  | Some err =>
      (Some None,
       {| calls := called;
          output := logged ++ [Stdout ("failed to run command '" ++ cmd c ++ "': " ++ Error err)] |})
  | None =>
      MainGoPrev.chainLoop sdk (Some (fst (sdk (calls ctx) reg))) rest connection
        {| calls := called; output := logged |}
  end.
Proof.
  cbv beta zeta delta [MainGoPrev.chainLoop bind Log_Info Printf NewCommand
                       prevChainRegistration guardedOpts callOf].
  cbn [calls output]. fold MainGoPrev.chainLoop.
  destruct (snd (sdk (calls ctx) _)); reflexivity.
Qed.

(** Closes the three cases of an induction over the command table, once
    the loop is unfolded by its equation [eqn]. *)
Ltac loop_run eqn IH :=
  let E := fresh "E" in
  let new := fresh "new" in
  let Hcalls := fresh "Hcalls" in
  let Hrun := fresh "Hrun" in
  rewrite eqn; cbv zeta;
  match goal with
  | |- context [snd (sdk ?h ?reg)] =>
      destruct (snd (sdk h reg)) eqn:E;
      [ exists [callOf sdk h reg]; split;
        [ reflexivity | eapply LoopRun_fail'; [reflexivity | exact E | reflexivity] ]
      | match goal with
        | |- context [?loop {| calls := ?cs; output := ?out |}] =>
            destruct (IH (Some (fst (sdk h reg))) {| calls := cs; output := out |})
              as (new & Hcalls & Hrun);
            exists (callOf sdk h reg :: new); split;
            [ rewrite Hcalls; cbn [calls]; rewrite <- app_assoc; reflexivity
            | apply LoopRun_next; [reflexivity | exact E | exact Hrun] ]
        end ]
  end.

Lemma runIndependentCommands_run (commands : list command) :
  forall (anchor : Resource) (ctx : Context),
  exists new,
    calls (snd (MainGo.runIndependentCommands sdk commands connection ctx)) = (calls ctx ++ new)%list /\
    LoopRun (fun _ => independentRegistration connection)
            (fun c err => Some (commandFailure c err)) None
            anchor commands new
            (fst (MainGo.runIndependentCommands sdk commands connection ctx)).
Proof.
  induction commands as [| c rest IH]; intros anchor ctx.
  - exists []. split; [symmetry; apply app_nil_r | constructor].
  - loop_run runIndependentCommands_cons IH.
Qed.

Lemma orderedLoop_run (commands : list command) :
  forall (last : Resource) (ctx : Context),
  exists new,
    calls (snd (MainGo.orderedLoop sdk last commands connection ctx)) = (calls ctx ++ new)%list /\
    LoopRun (chainRegistration connection)
            (fun c err => Some (commandFailure c err)) None
            last commands new
            (fst (fst (MainGo.orderedLoop sdk last commands connection ctx))).
Proof.
  induction commands as [| c rest IH]; intros last ctx.
  - exists []. split; [symmetry; apply app_nil_r | constructor].
  - loop_run orderedLoop_cons IH.
Qed.

Lemma runOrderedCommands_run (update_cmd : CommandPtr) (commands : list command)
    (ctx : Context) :
  exists new,
    calls (snd (MainGo.runOrderedCommands sdk update_cmd commands connection ctx))
    = (calls ctx ++ new)%list /\
    LoopRun (chainRegistration connection)
            (fun c err => Some (commandFailure c err)) None
            (Some update_cmd) commands new
            (fst (MainGo.runOrderedCommands sdk update_cmd commands connection ctx)).
Proof.
  destruct (orderedLoop_run commands (Some update_cmd) ctx) as (new & Hcalls & Hrun).
  exists new. unfold MainGo.runOrderedCommands, bind, ret.
  destruct (MainGo.orderedLoop sdk (Some update_cmd) commands connection ctx) as [[err last] ctx'].
  split; assumption.
Qed.

Lemma part000_chainLoop_run (cmds : list command) :
  forall (last : Resource) (ctx : Context),
  exists new,
    calls (snd (Part000.chainLoop sdk last cmds connection ctx)) = (calls ctx ++ new)%list /\
    LoopRun (part000ChainRegistration connection)
            (fun _ _ => Some (@None error)) None
            last cmds new
            (fst (Part000.chainLoop sdk last cmds connection ctx)).
Proof.
  induction cmds as [| c rest IH]; intros last ctx.
  - exists []. split; [symmetry; apply app_nil_r | constructor].
  - loop_run part000_chainLoop_cons IH.
Qed.

Lemma part000_independentLoop_run (cmds : list command) :
  forall (anchor : Resource) (ctx : Context),
  exists new,
    calls (snd (Part000.independentLoop sdk cmds connection ctx)) = (calls ctx ++ new)%list /\
    LoopRun (fun _ => part000IndependentRegistration connection)
            (fun c err => Some (Some (part000CommandFailure c err))) None
            anchor cmds new
            (fst (Part000.independentLoop sdk cmds connection ctx)).
Proof.
  induction cmds as [| c rest IH]; intros anchor ctx.
  - exists []. split; [symmetry; apply app_nil_r | constructor].
  - loop_run part000_independentLoop_cons IH.
Qed.

Lemma prev_chainLoop_run (cmds : list command) :
  forall (last : Resource) (ctx : Context),
  exists new,
    calls (snd (MainGoPrev.chainLoop sdk last cmds connection ctx)) = (calls ctx ++ new)%list /\
    LoopRun (prevChainRegistration connection)
            (fun _ _ => Some (@None error)) None
            last cmds new
            (fst (MainGoPrev.chainLoop sdk last cmds connection ctx)).
Proof.
  induction cmds as [| c rest IH]; intros last ctx.
  - exists []. split; [symmetry; apply app_nil_r | constructor].
  - loop_run prev_chainLoop_cons IH.
Qed.

End ExecutorRuns.

(** ** The chain executor *)

Lemma string_app_assoc (a b c : string) : ((a ++ b) ++ c = a ++ (b ++ c))%string.
Proof.
  induction a as [| x a IH]; simpl; [reflexivity | now rewrite IH].
Qed.

Lemma newCalls_app (ctx ctx' : Context) (new : list Call) :
  calls ctx' = (calls ctx ++ new)%list -> newCalls ctx ctx' = new.
Proof.
  intros H. unfold newCalls. rewrite H, skipn_app, skipn_all, Nat.sub_diag. reflexivity.
Qed.

(** C1. [runOrderedCommands] registers the commands in the order of the
    list: the calls it adds to the context are, one for one, the commands of
    a prefix of the list, with the command's name and text, and the [i]-th
    of them carries exactly one option, [DependsOn] of exactly one resource:
    the anchor [update_cmd] for the first, and for every later one the
    pointer the call just before it returned.  When no registration is
    refused (equivalently, when the executor returns nil) the prefix is the
    whole list, so [N] commands give [N] calls and [N] links. *)
Theorem runOrderedCommands_links (sdk : Engine) (update_cmd : CommandPtr)
    (commands : list command) (connection : ConnectionArgs) (ctx : Context) :
  let run := MainGo.runOrderedCommands sdk update_cmd commands connection ctx in
  let new := newCalls ctx (snd run) in
  calls (snd run) = (calls ctx ++ new)%list /\
  length new <= length commands /\
  (forall i call, nth_error new i = Some call ->
     exists c, nth_error commands i = Some c /\
       reg_name (call_reg call) = name c /\
       Create (reg_args (call_reg call)) = cmd c /\
       reg_opts (call_reg call) = [DependsOn [predecessor (Some update_cmd) new i]]) /\
  (Forall (fun call => call_err call = None) new ->
     length new = length commands /\ fst run = None) /\
  (fst run = None -> length new = length commands).
Proof.
  intros run new.
  destruct (runOrderedCommands_run sdk connection update_cmd commands ctx)
    as (new' & Hcalls & Hrun).
  fold run in Hcalls, Hrun.
  assert (Hnew : new = new') by (apply newCalls_app; exact Hcalls).
  rewrite Hnew. clear Hnew new.
  split; [exact Hcalls |].
  split; [exact (LoopRun_length _ _ _ _ _ _ _ Hrun) |].
  split; [| split].
  - intros i call Hi.
    destruct (LoopRun_nth _ _ _ _ _ _ _ Hrun i call Hi) as (c & Hc & Hreg).
    exists c. rewrite Hreg. repeat split. exact Hc.
  - exact (LoopRun_success _ _ _ _ _ _ _ Hrun).
  - intros Hnone.
    eapply LoopRun_finished; [| exact Hrun | exact Hnone].
    intros c err; discriminate.
Qed.

(** What [runOrderedCommands] does when a registration is refused: the
    refused call is the last one it makes, every call before it was
    accepted, and the executor returns the refusal wrapped in a message
    that quotes the text of the refused command. *)
Lemma runOrderedCommands_failure (sdk : Engine) (update_cmd : CommandPtr)
    (commands : list command) (connection : ConnectionArgs) (ctx : Context)
    (k : nat) (call : Call) (err : error) :
  let run := MainGo.runOrderedCommands sdk update_cmd commands connection ctx in
  let new := newCalls ctx (snd run) in
  nth_error new k = Some call ->
  call_err call = Some err ->
  length new = S k /\
  exists c, nth_error commands k = Some c /\
    fst run = Some (wrapError ("failed to run command '" ++ cmd c ++ "': " ++ Error err) err).
Proof.
  intros run new Hk Herr.
  destruct (runOrderedCommands_run sdk connection update_cmd commands ctx)
    as (new' & Hcalls & Hrun).
  fold run in Hcalls, Hrun.
  assert (Hnew : new = new') by (apply newCalls_app; exact Hcalls).
  rewrite Hnew in *. clear Hnew new.
  destruct (LoopRun_failure _ _ _ _ _ _ _ Hrun k call err Hk Herr) as (Hlen & c & Hc & Hr).
  split; [exact Hlen |]. exists c. split; [exact Hc |].
  rewrite Hr. unfold commandFailure, Errorf_w. rewrite !string_app_assoc. reflexivity.
Qed.

(** Three commands on an SDK that accepts everything: three calls, each
    depending on the one before it, the first on the anchor. *)
Example chain_of_three_links :
  map (fun call => (reg_name (call_reg call), reg_opts (call_reg call)))
      (calls (snd (MainGo.runOrderedCommands acceptAll (CommandRef 100)
                     [Command "a" "echo a"; Command "b" "echo b"; Command "c" "echo c"]
                     (connectionOf "ismail" "KEY") emptyContext)))
  = [ ("a", [DependsOn [Some (CommandRef 100)]]);
      ("b", [DependsOn [Some (CommandRef 0)]]);
      ("c", [DependsOn [Some (CommandRef 1)]]) ].
Proof. reflexivity. Qed.

(** The same three commands when the second registration is refused: two
    calls, and the refusal comes back wrapped. *)
Example chain_of_three_refused_at_b :
  namesOf (calls (snd (MainGo.runOrderedCommands (refuseFrom 1) (CommandRef 100)
                         [Command "a" "echo a"; Command "b" "echo b"; Command "c" "echo c"]
                         (connectionOf "ismail" "KEY") emptyContext))) = ["a"; "b"] /\
  fst (MainGo.runOrderedCommands (refuseFrom 1) (CommandRef 100)
         [Command "a" "echo a"; Command "b" "echo b"; Command "c" "echo c"]
         (connectionOf "ismail" "KEY") emptyContext)
  = Some (wrapError
            "failed to run command 'echo b': ssh: connect to host localhost port 32222: connection refused"
            (errorString "ssh: connect to host localhost port 32222: connection refused")).
Proof. split; reflexivity. Qed.

(** ** The independent-set executor *)

(** C5. The calls [runIndependentCommands] adds to the context are, one for
    one and in order, the commands of a prefix of the list, each with the
    name and the text of its command and with no resource option at all, so
    none of them declares a dependency; when no registration is refused the
    prefix is the whole list, [N] calls for [N] commands.  The independent
    loop of part_000 does the same. *)
Theorem independent_commands_no_dependency (sdk : Engine) (commands : list command)
    (connection : ConnectionArgs) (ctx : Context) :
  (let run := MainGo.runIndependentCommands sdk commands connection ctx in
   let new := newCalls ctx (snd run) in
   calls (snd run) = (calls ctx ++ new)%list /\
   length new <= length commands /\
   (forall i call, nth_error new i = Some call ->
      exists c, nth_error commands i = Some c /\
        reg_name (call_reg call) = name c /\
        Create (reg_args (call_reg call)) = cmd c /\
        reg_opts (call_reg call) = []) /\
   (Forall (fun call => call_err call = None) new ->
      length new = length commands /\ fst run = None)) /\
  (let run := Part000.independentLoop sdk commands connection ctx in
   let new := newCalls ctx (snd run) in
   calls (snd run) = (calls ctx ++ new)%list /\
   length new <= length commands /\
   (forall i call, nth_error new i = Some call ->
      exists c, nth_error commands i = Some c /\
        reg_name (call_reg call) = name c /\
        Create (reg_args (call_reg call)) = cmd c /\
        reg_opts (call_reg call) = []) /\
   (Forall (fun call => call_err call = None) new ->
      length new = length commands /\ fst run = None)).
Proof.
  split; intros run new.
  - destruct (runIndependentCommands_run sdk connection commands None ctx)
      as (new' & Hcalls & Hrun).
    fold run in Hcalls, Hrun.
    assert (Hnew : new = new') by (apply newCalls_app; exact Hcalls).
    rewrite Hnew. clear Hnew new.
    split; [exact Hcalls |].
    split; [exact (LoopRun_length _ _ _ _ _ _ _ Hrun) |].
    split.
    + intros i call Hi.
      destruct (LoopRun_nth _ _ _ _ _ _ _ Hrun i call Hi) as (c & Hc & Hreg).
      exists c. rewrite Hreg. repeat split. exact Hc.
    + exact (LoopRun_success _ _ _ _ _ _ _ Hrun).
  - destruct (part000_independentLoop_run sdk connection commands None ctx)
      as (new' & Hcalls & Hrun).
    fold run in Hcalls, Hrun.
    assert (Hnew : new = new') by (apply newCalls_app; exact Hcalls).
    rewrite Hnew. clear Hnew new.
    split; [exact Hcalls |].
    split; [exact (LoopRun_length _ _ _ _ _ _ _ Hrun) |].
    split.
    + intros i call Hi.
      destruct (LoopRun_nth _ _ _ _ _ _ _ Hrun i call Hi) as (c & Hc & Hreg).
      exists c. rewrite Hreg. repeat split. exact Hc.
    + exact (LoopRun_success _ _ _ _ _ _ _ Hrun).
Qed.

(** C7. When a registration made by [runIndependentCommands] is refused,
    that call is the last one the executor makes, every call before it was
    accepted (so it is the first refusal), and the executor returns the
    refusal wrapped in a message that quotes the command's text.  The
    independent loop of part_000 stops in the same way and makes [main]
    return the refusal wrapped in a message that names the command. *)
Theorem independent_failure_returned (sdk : Engine) (commands : list command)
    (connection : ConnectionArgs) (ctx : Context) :
  (let run := MainGo.runIndependentCommands sdk commands connection ctx in
   let new := newCalls ctx (snd run) in
   forall k call err,
     nth_error new k = Some call -> call_err call = Some err ->
     length new = S k /\
     (forall j call', j < k -> nth_error new j = Some call' -> call_err call' = None) /\
     exists c, nth_error commands k = Some c /\
       fst run = Some (wrapError ("failed to run command '" ++ cmd c ++ "': " ++ Error err) err)) /\
  (let run := Part000.independentLoop sdk commands connection ctx in
   let new := newCalls ctx (snd run) in
   forall k call err,
     nth_error new k = Some call -> call_err call = Some err ->
     length new = S k /\
     (forall j call', j < k -> nth_error new j = Some call' -> call_err call' = None) /\
     exists c, nth_error commands k = Some c /\
       fst run = Some (Some (wrapError ("failed to run command " ++ name c ++ ": " ++ Error err) err))).
Proof.
  split; intros run new k call err Hk Herr.
  - destruct (runIndependentCommands_run sdk connection commands None ctx)
      as (new' & Hcalls & Hrun).
    fold run in Hcalls, Hrun.
    assert (Hnew : new = new') by (apply newCalls_app; exact Hcalls).
    rewrite Hnew in *. clear Hnew new.
    destruct (LoopRun_failure _ _ _ _ _ _ _ Hrun k call err Hk Herr) as (Hlen & c & Hc & Hr).
    split; [exact Hlen |].
    split; [exact (LoopRun_accepted_before _ _ _ _ _ _ _ Hrun k call err Hk Herr) |].
    exists c. split; [exact Hc |].
    rewrite Hr. unfold commandFailure, Errorf_w. rewrite !string_app_assoc. reflexivity.
  - destruct (part000_independentLoop_run sdk connection commands None ctx)
      as (new' & Hcalls & Hrun).
    fold run in Hcalls, Hrun.
    assert (Hnew : new = new') by (apply newCalls_app; exact Hcalls).
    rewrite Hnew in *. clear Hnew new.
    destruct (LoopRun_failure _ _ _ _ _ _ _ Hrun k call err Hk Herr) as (Hlen & c & Hc & Hr).
    split; [exact Hlen |].
    split; [exact (LoopRun_accepted_before _ _ _ _ _ _ _ Hrun k call err Hk Herr) |].
    exists c. split; [exact Hc |].
    rewrite Hr. unfold part000CommandFailure, Errorf_w. rewrite !string_app_assoc. reflexivity.
Qed.

(** Three independent commands: no option on any call; and, when the second
    registration is refused, two calls and the refusal wrapped. *)
Example independent_three :
  map (fun call => (reg_name (call_reg call), reg_opts (call_reg call)))
      (calls (snd (MainGo.runIndependentCommands acceptAll
                     [Command "a" "echo a"; Command "b" "echo b"; Command "c" "echo c"]
                     (connectionOf "ismail" "KEY") emptyContext)))
  = [ ("a", []); ("b", []); ("c", []) ].
Proof. reflexivity. Qed.

Example independent_three_refused_at_b :
  namesOf (calls (snd (MainGo.runIndependentCommands (refuseFrom 1)
                         [Command "a" "echo a"; Command "b" "echo b"; Command "c" "echo c"]
                         (connectionOf "ismail" "KEY") emptyContext))) = ["a"; "b"] /\
  fst (MainGo.runIndependentCommands (refuseFrom 1)
         [Command "a" "echo a"; Command "b" "echo b"; Command "c" "echo c"]
         (connectionOf "ismail" "KEY") emptyContext)
  = Some (wrapError
            "failed to run command 'echo b': ssh: connect to host localhost port 32222: connection refused"
            (errorString "ssh: connect to host localhost port 32222: connection refused")) /\
  fst (Part000.independentLoop (refuseFrom 1)
         [Command "a" "echo a"; Command "b" "echo b"; Command "c" "echo c"]
         (connectionOf "ismail" "KEY") emptyContext)
  = Some (Some (wrapError
            "failed to run command b: ssh: connect to host localhost port 32222: connection refused"
            (errorString "ssh: connect to host localhost port 32222: connection refused"))).
Proof. repeat split. Qed.

(** C10. On the empty list both executors of main.go leave the context as
    it was (no call of [NewCommand], nothing logged) and return nil, and the
    loop of the chain executor ends with [lastResource] still holding the
    anchor it was given. *)
Theorem executors_on_empty_list (sdk : Engine) (update_cmd : CommandPtr)
    (connection : ConnectionArgs) (ctx : Context) :
  MainGo.runIndependentCommands sdk [] connection ctx = (None, ctx) /\
  MainGo.runOrderedCommands sdk update_cmd [] connection ctx = (None, ctx) /\
  MainGo.orderedLoop sdk (Some update_cmd) [] connection ctx = ((None, Some update_cmd), ctx) /\
  newCalls ctx (snd (MainGo.runIndependentCommands sdk [] connection ctx)) = [] /\
  newCalls ctx (snd (MainGo.runOrderedCommands sdk update_cmd [] connection ctx)) = [].
Proof.
  repeat split; unfold newCalls; cbn [snd MainGo.runIndependentCommands
    MainGo.runOrderedCommands MainGo.orderedLoop bind ret]; apply skipn_all.
Qed.

(** ** The command-table builders *)

Lemma supported_false (d : string) :
  supported d = false <-> d <> "fedora" /\ d <> "ubuntu" /\ d <> "debian".
Proof.
  unfold supported. rewrite !orb_false_iff, !String.eqb_neq. tauto.
Qed.

Lemma supported_true (d : string) :
  supported d = true <-> d = "fedora" \/ d = "ubuntu" \/ d = "debian".
Proof.
  unfold supported. rewrite !orb_true_iff, !String.eqb_eq. tauto.
Qed.

Lemma builders_unsupported (d : string) :
  supported d = false ->
  MainGo.installCmd d = (EmptyString, Some (unsupportedDistribution d)) /\
  MainGo.updateCmd d = (EmptyString, Some (unsupportedDistribution d)) /\
  MainGoPrev.installCmd d = (EmptyString, Some (unsupportedDistribution d)) /\
  MainGoPrev.updateCmd d = (EmptyString, Some (unsupportedDistribution d)) /\
  Part000.installCmd d = (EmptyString, Some (unsupportedDistribution d)) /\
  Part000.updateCmd d = (EmptyString, Some (unsupportedDistribution d)).
Proof.
  intros H. unfold supported in H. rewrite !orb_false_iff in H.
  destruct H as ((Hf & Hu) & Hd).
  unfold MainGo.installCmd, MainGo.updateCmd, MainGoPrev.installCmd, MainGoPrev.updateCmd,
    Part000.installCmd, Part000.updateCmd.
  rewrite Hf, Hu, Hd. repeat split.
Qed.

Lemma builders_supported (d : string) :
  supported d = true ->
  snd (MainGo.installCmd d) = None /\ snd (MainGo.updateCmd d) = None /\
  snd (Part000.installCmd d) = None /\ snd (Part000.updateCmd d) = None.
Proof.
  intros H. apply supported_true in H.
  destruct H as [-> | [-> | ->]]; repeat split.
Qed.

(** C3. The literal strings each revision returns for the three supported
    identifiers, and the unsupported-distribution error [installCmd] and
    [updateCmd] return, in every revision, for any other string. *)
Theorem installCmd_updateCmd_table :
  (MainGo.installCmd "fedora" = ("sudo dnf install -y", None) /\
   MainGo.installCmd "ubuntu" = ("sudo apt-get install -y", None) /\
   MainGo.installCmd "debian" = ("sudo apt-get install -y", None) /\
   MainGo.updateCmd "fedora" = ("sudo dnf update -y", None) /\
   MainGo.updateCmd "ubuntu" = ("sudo apt-get update && sudo apt-get dist-upgrade -y", None) /\
   MainGo.updateCmd "debian" = ("sudo apt-get update && sudo apt-get dist-upgrade -y", None)) /\
  (MainGoPrev.installCmd "fedora" = ("dnf install -y", None) /\
   MainGoPrev.installCmd "ubuntu" = ("apt-get install -y", None) /\
   MainGoPrev.installCmd "debian" = ("apt-get install -y", None) /\
   MainGoPrev.updateCmd "fedora" = ("sudo dnf update -y", None) /\
   MainGoPrev.updateCmd "ubuntu"
     = ("sudo bash -c " ++ dquote ++ "apt-get update && apt-get dist-upgrade -y" ++ dquote, None) /\
   MainGoPrev.updateCmd "debian"
     = ("sudo bash -c " ++ dquote ++ "apt-get update && apt-get dist-upgrade -y" ++ dquote, None)) /\
  (forall d, Part000.installCmd d = MainGoPrev.installCmd d /\
             Part000.updateCmd d = MainGoPrev.updateCmd d) /\
  (forall d, d <> "fedora" -> d <> "ubuntu" -> d <> "debian" ->
     MainGo.installCmd d = (EmptyString, Some (errorString ("unsupported distribution: " ++ d))) /\
     MainGo.updateCmd d = (EmptyString, Some (errorString ("unsupported distribution: " ++ d))) /\
     MainGoPrev.installCmd d = (EmptyString, Some (errorString ("unsupported distribution: " ++ d))) /\
     MainGoPrev.updateCmd d = (EmptyString, Some (errorString ("unsupported distribution: " ++ d))) /\
     Part000.installCmd d = (EmptyString, Some (errorString ("unsupported distribution: " ++ d))) /\
     Part000.updateCmd d = (EmptyString, Some (errorString ("unsupported distribution: " ++ d)))).
Proof.
  split; [repeat split |].
  split; [repeat split |].
  split; [intros d; split; reflexivity |].
  intros d Hf Hu Hd. apply builders_unsupported.
  apply supported_false. tauto.
Qed.

(** C4 does not hold of the lookup: [extraPackagesForDistro] returns a slice and
    nothing else, and for an identifier outside the three it returns the
    empty one, in main.go and in part_000 alike. *)
Lemma extraPackagesForDistro_arch_is_empty :
  supported "arch" = false /\
  MainGo.extraPackagesForDistro "arch" = [] /\
  Part000.extraPackagesForDistro "arch" = [].
Proof.
  repeat split.
Qed.

(** C4, amended.  For an identifier outside the three, [installCmd] and
    [updateCmd] return the unsupported-distribution error, while
    [extraPackagesForDistro], which has no error result, returns the empty
    list; [main] of main.go (first document) and of part_000 returns the
    error of [installCmd], wrapped, without registering anything, so that
    the lookup is not reached. *)
Theorem builders_reject_unsupported (sdk : Engine) (d sshUsername key now : string)
    (ctx : Context) :
  supported d = false ->
  (fst (MainGo.installCmd d) = EmptyString /\
   snd (MainGo.installCmd d) = Some (errorString ("unsupported distribution: " ++ d)) /\
   fst (MainGo.updateCmd d) = EmptyString /\
   snd (MainGo.updateCmd d) = Some (errorString ("unsupported distribution: " ++ d)) /\
   snd (MainGoPrev.installCmd d) = Some (errorString ("unsupported distribution: " ++ d)) /\
   snd (MainGoPrev.updateCmd d) = Some (errorString ("unsupported distribution: " ++ d)) /\
   snd (Part000.installCmd d) = Some (errorString ("unsupported distribution: " ++ d)) /\
   snd (Part000.updateCmd d) = Some (errorString ("unsupported distribution: " ++ d))) /\
  MainGo.extraPackagesForDistro d = [] /\
  Part000.extraPackagesForDistro d = [] /\
  MainGo.main sdk d sshUsername (key, None) now ctx
    = (Some (wrapError ("failed to get install command: unsupported distribution: " ++ d)
               (errorString ("unsupported distribution: " ++ d))), ctx) /\
  Part000.main sdk d sshUsername (key, None) ctx
    = (Some (wrapError ("failed to get install command: unsupported distribution: " ++ d)
               (errorString ("unsupported distribution: " ++ d))), ctx).
Proof.
  intros H.
  destruct (builders_unsupported d H) as (H1 & H2 & H3 & H4 & H5 & H6).
  split; [rewrite H1, H2, H3, H4, H5, H6; repeat split |].
  unfold MainGo.main, Part000.main. cbn [fst snd]. rewrite H1, H5. cbn [fst snd].
  unfold supported in H. rewrite !orb_false_iff in H. destruct H as ((Hf & Hu) & Hd).
  unfold MainGo.extraPackagesForDistro, Part000.extraPackagesForDistro.
  rewrite Hf, Hu, Hd. repeat split.
Qed.

Lemma builders_reject_unsupported_arch :
  supported "arch" = false /\
  MainGo.extraPackagesForDistro "arch" = [] /\
  fst (MainGo.main refuseAll "arch" "ismail" ("KEY", None) "2026-01-01T00:00:00Z" emptyContext)
    = Some (wrapError "failed to get install command: unsupported distribution: arch"
              (errorString "unsupported distribution: arch")).
Proof.
  pose proof (builders_reject_unsupported refuseAll "arch" "ismail" "KEY"
                "2026-01-01T00:00:00Z" emptyContext eq_refl) as (_ & H & _ & Hmain & _).
  split; [reflexivity |]. split; [exact H |]. rewrite Hmain. reflexivity.
Defined.

(** ** Runs of [main] *)

Lemma main_run_eq (sdk : Engine) (d sshUsername key now : string)
    (result : option error) (ctx' : Context) :
  supported d = true ->
  MainGo.main sdk d sshUsername (key, None) now emptyContext = (result, ctx') ->
  MainRun d sshUsername key now result (calls ctx').
Proof.
  intros Hd H. destruct (builders_supported d Hd) as (Hi & Hu & _).
  unfold MainGo.main in H. cbn [fst snd] in H. rewrite Hi, Hu in H.
  fold (connectionOf sshUsername key) in H.
  unfold bind at 1 in H. unfold NewCommand at 1 in H.
  cbn [calls output emptyContext app] in H.
  fold (updateSystemRegistration d sshUsername key now) in H.
  set (reg := updateSystemRegistration d sshUsername key now) in *.
  destruct (sdk [] reg) as [ptr answer] eqn:E. cbn [fst snd] in H.
  set (first := {| call_reg := reg; call_result := ptr; call_err := answer |}) in *.
  destruct answer as [err |].
  - injection H as <- <-.
    exists first, [], [], None. repeat split.
  - unfold bind at 1 in H.
    set (ctx1 := {| calls := [first]; output := [] |}) in *.
    destruct (runOrderedCommands_run sdk (connectionOf sshUsername key) ptr
                (MainGo.setup_commands (fst (MainGo.installCmd d))
                                       (MainGo.extraPackagesForDistro d)) ctx1)
      as (new1 & Hcalls1 & Hrun1).
    destruct (MainGo.runOrderedCommands sdk ptr _ _ ctx1) as [r1 ctx2].
    cbn [fst snd] in Hcalls1, Hrun1.
    destruct r1 as [err1 |].
    + unfold bind, Log_Error, ret in H. injection H as <- <-.
      exists first, new1, [], (Some err1). cbn [calls].
      rewrite Hcalls1, app_nil_r. split; [reflexivity |]. split; [reflexivity |].
      split; [exact Hrun1 | split; reflexivity].
    + unfold bind at 1 in H.
      destruct (runIndependentCommands_run sdk (connectionOf sshUsername key)
                  MainGo.extra_commands None ctx2) as (new2 & Hcalls2 & Hrun2).
      destruct (MainGo.runIndependentCommands sdk MainGo.extra_commands _ ctx2) as [r2 ctx3].
      cbn [fst snd] in Hcalls2, Hrun2.
      assert (Hall : calls ctx3 = first :: (new1 ++ new2)%list).
      { rewrite Hcalls2, Hcalls1. reflexivity. }
      exists first, new1, new2, None.
      destruct r2 as [err2 |]; unfold bind, Log_Error, Log_Info, ret in H;
        injection H as <- <-; cbn [calls];
        (split; [exact Hall |]); (split; [reflexivity |]); split; assumption.
Qed.

Lemma main_run (sdk : Engine) (d sshUsername key now : string) :
  supported d = true ->
  MainRun d sshUsername key now
    (fst (MainGo.main sdk d sshUsername (key, None) now emptyContext))
    (calls (snd (MainGo.main sdk d sshUsername (key, None) now emptyContext))).
Proof.
  intros Hd. apply (main_run_eq sdk); [exact Hd |].
  destruct (MainGo.main sdk d sshUsername (key, None) now emptyContext); reflexivity.
Qed.

Lemma main_key_error (sdk : Engine) (d sshUsername key now : string) (err : error)
    (ctx : Context) :
  MainGo.main sdk d sshUsername (key, Some err) now ctx
  = (Some (Errorf_w "failed to read private key: " err), ctx).
Proof.
  reflexivity.
Qed.

Lemma main_unsupported (sdk : Engine) (d sshUsername key now : string) (ctx : Context) :
  supported d = false ->
  MainGo.main sdk d sshUsername (key, None) now ctx
  = (Some (Errorf_w "failed to get install command: " (unsupportedDistribution d)), ctx).
Proof.
  intros H. destruct (builders_unsupported d H) as (H1 & _).
  unfold MainGo.main. cbn [fst snd]. rewrite H1. reflexivity.
Qed.

Lemma part000_main_run_eq (sdk : Engine) (d sshUsername key : string)
    (result : option error) (ctx' : Context) :
  supported d = true ->
  Part000.main sdk d sshUsername (key, None) emptyContext = (result, ctx') ->
  Part000Run d sshUsername key result (calls ctx').
Proof.
  intros Hd H. destruct (builders_supported d Hd) as (_ & _ & Hi & Hu).
  unfold Part000.main in H. cbn [fst snd] in H. rewrite Hi, Hu in H.
  fold (connectionOf sshUsername key) in H.
  unfold bind at 1 in H.
  destruct (part000_chainLoop_run sdk (connectionOf sshUsername key)
              (Part000.base_commands (fst (Part000.installCmd d)) (fst (Part000.updateCmd d))
                                     (Part000.extraPackagesForDistro d))
              None emptyContext) as (new1 & Hcalls1 & Hrun1).
  destruct (Part000.chainLoop sdk None _ _ emptyContext) as [r1 ctx1].
  cbn [fst snd calls emptyContext app] in Hcalls1, Hrun1.
  destruct r1 as [r |].
  - unfold ret in H. injection H as <- <-.
    exists new1, [], (Some r). rewrite app_nil_r.
    split; [exact Hcalls1 |]. split; [exact Hrun1 |]. split; reflexivity.
  - unfold bind at 1 in H.
    destruct (part000_independentLoop_run sdk (connectionOf sshUsername key)
                Part000.commands None ctx1) as (new2 & Hcalls2 & Hrun2).
    destruct (Part000.independentLoop sdk Part000.commands _ ctx1) as [r2 ctx2].
    cbn [fst snd] in Hcalls2, Hrun2.
    exists new1, new2, None.
    assert (Hall : calls ctx' = (new1 ++ new2)%list).
    { destruct r2; unfold bind, Log_Info, ret in H; injection H as <- <-;
        cbn [calls]; rewrite Hcalls2, Hcalls1; reflexivity. }
    split; [exact Hall |]. split; [exact Hrun1 |].
    exists r2. split; [exact Hrun2 |].
    destruct r2; unfold bind, Log_Info, ret in H; injection H as <- <-; reflexivity.
Qed.

Lemma part000_main_unsupported (sdk : Engine) (d sshUsername key : string) (ctx : Context) :
  supported d = false ->
  Part000.main sdk d sshUsername (key, None) ctx
  = (Some (Errorf_w "failed to get install command: " (unsupportedDistribution d)), ctx).
Proof.
  intros H. destruct (builders_unsupported d H) as (_ & _ & _ & _ & H1 & _).
  unfold Part000.main. cbn [fst snd]. rewrite H1. reflexivity.
Qed.

(** A run of [main] of the second document of main.go: one chain, and nil
    as the result whatever happened. *)
Lemma prev_main_run_eq (sdk : Engine) (d sshUsername key : string)
    (result : option error) (ctx' : Context) :
  MainGoPrev.main sdk d sshUsername (key, None) emptyContext = (result, ctx') ->
  result = None /\
  exists r1,
    LoopRun (prevChainRegistration (connectionOf sshUsername key))
            (fun _ _ => Some (@None error)) None None
            (MainGoPrev.commands (fst (MainGoPrev.installCmd d)) (fst (MainGoPrev.updateCmd d)))
            (calls ctx') r1.
Proof.
  intros H. unfold MainGoPrev.main in H. cbn [fst snd] in H.
  fold (connectionOf sshUsername key) in H.
  unfold bind at 1 in H.
  destruct (prev_chainLoop_run sdk (connectionOf sshUsername key)
              (MainGoPrev.commands (fst (MainGoPrev.installCmd d))
                                   (fst (MainGoPrev.updateCmd d)))
              None emptyContext) as (new1 & Hcalls1 & Hrun1).
  destruct (MainGoPrev.chainLoop sdk None _ _ emptyContext) as [r1 ctx1].
  cbn [fst snd calls emptyContext app] in Hcalls1, Hrun1.
  destruct r1 as [r |].
  - unfold ret in H. injection H as <- <-.
    assert (Hr : Some r = Some None \/ Some r = @None (option error)).
    { clear - Hrun1. induction Hrun1; auto. }
    destruct Hr as [Hr | Hr]; [| discriminate].
    injection Hr as ->. split; [reflexivity |].
    exists (Some None). rewrite Hcalls1. exact Hrun1.
  - unfold bind, Log_Info, ret in H. injection H as <- <-.
    split; [reflexivity |]. exists None. cbn [calls]. rewrite Hcalls1. exact Hrun1.
Qed.

(** ** Names of the registered commands *)

Lemma NoDup_firstn {A : Type} (k : nat) (l : list A) : NoDup l -> NoDup (firstn k l).
Proof.
  intros H. rewrite <- (firstn_skipn k l) in H. exact (NoDup_app_remove_r _ _ H).
Qed.

Lemma firstn_app_short {A : Type} (k : nat) (l1 l2 : list A) :
  k <= length l1 -> firstn k l1 = firstn k (l1 ++ l2).
Proof.
  intros H. rewrite firstn_app. replace (k - length l1) with 0 by lia.
  simpl. symmetry. apply app_nil_r.
Qed.

Lemma main_names (sdk : Engine) (d sshUsername : string) (keyFile : string * option error)
    (now : string) :
  exists k,
    namesOf (calls (snd (MainGo.main sdk d sshUsername keyFile now emptyContext)))
    = firstn k mainGoNames.
Proof.
  destruct keyFile as [key [err |]]; [exists 0; reflexivity |].
  destruct (supported d) eqn:Hd; [| exists 0; rewrite main_unsupported by exact Hd; reflexivity].
  destruct (main_run sdk d sshUsername key now Hd)
    as (first & new1 & new2 & r1 & Hall & Hfirst & Hrest).
  rewrite Hall. unfold namesOf. cbn [map]. rewrite Hfirst. cbn [reg_name updateSystemRegistration].
  destruct (call_err first) as [err |].
  - destruct Hrest as (-> & -> & _). exists 1. reflexivity.
  - destruct Hrest as (Hrun1 & Hrest).
    pose proof (LoopRun_length _ _ _ _ _ _ _ Hrun1) as Hlen1.
    pose proof (LoopRun_names (chainRegistration (connectionOf sshUsername key))
                  _ _ _ _ _ _ (fun _ _ => eq_refl) Hrun1) as Hnames1.
    change (map name (MainGo.setup_commands _ _))
      with (map name (MainGo.setup_commands EmptyString [])) in Hnames1.
    change (length (MainGo.setup_commands _ _)) with 7 in Hlen1.
    rewrite map_app, Hnames1.
    destruct r1 as [err1 |].
    + destruct Hrest as (-> & _). exists (S (length new1)).
      unfold mainGoNames. cbn [firstn map]. f_equal.
      rewrite app_nil_r. apply firstn_app_short. exact Hlen1.
    + assert (Hfull : length new1
                      = length (MainGo.setup_commands (fst (MainGo.installCmd d))
                                                      (MainGo.extraPackagesForDistro d))).
      { eapply proj1, LoopRun_finished; [| exact Hrun1 | reflexivity]. intros; discriminate. }
      change (length (MainGo.setup_commands _ _)) with 7 in Hfull.
      pose proof (LoopRun_names (fun _ => independentRegistration (connectionOf sshUsername key))
                    _ _ _ _ _ _ (fun _ _ => eq_refl) Hrest) as Hnames2.
      rewrite Hnames2, Hfull. exists (S (7 + length new2)).
      reflexivity.
Qed.

Lemma part000_main_names (sdk : Engine) (d sshUsername : string)
    (keyFile : string * option error) :
  exists k,
    namesOf (calls (snd (Part000.main sdk d sshUsername keyFile emptyContext)))
    = firstn k part000Names.
Proof.
  destruct keyFile as [key [err |]]; [exists 0; reflexivity |].
  destruct (supported d) eqn:Hd;
    [| exists 0; rewrite part000_main_unsupported by exact Hd; reflexivity].
  destruct (Part000.main sdk d sshUsername (key, None) emptyContext) as [result ctx'] eqn:E.
  destruct (part000_main_run_eq sdk d sshUsername key result ctx' Hd E)
    as (new1 & new2 & r1 & Hall & Hrun1 & Hrest).
  cbn [snd]. rewrite Hall. unfold namesOf.
  pose proof (LoopRun_length _ _ _ _ _ _ _ Hrun1) as Hlen1.
  pose proof (LoopRun_names (part000ChainRegistration (connectionOf sshUsername key))
                _ _ _ _ _ _ (fun _ _ => eq_refl) Hrun1) as Hnames1.
  change (map name (Part000.base_commands _ _ _))
    with (map name (Part000.base_commands EmptyString EmptyString [])) in Hnames1.
  change (length (Part000.base_commands _ _ _)) with 3 in Hlen1.
  rewrite map_app, Hnames1.
  destruct r1 as [r |].
  - destruct Hrest as (-> & _). exists (length new1).
    unfold part000Names. cbn [map]. rewrite app_nil_r. apply firstn_app_short. exact Hlen1.
  - destruct Hrest as (r2 & Hrun2 & _).
    assert (Hfull : length new1
                    = length (Part000.base_commands (fst (Part000.installCmd d))
                                (fst (Part000.updateCmd d)) (Part000.extraPackagesForDistro d))).
    { eapply proj1, LoopRun_finished; [| exact Hrun1 | reflexivity]. intros; discriminate. }
    change (length (Part000.base_commands _ _ _)) with 3 in Hfull.
    pose proof (LoopRun_names
                  (fun _ => part000IndependentRegistration (connectionOf sshUsername key))
                  _ _ _ _ _ _ (fun _ _ => eq_refl) Hrun2) as Hnames2.
    rewrite Hnames2, Hfull. exists (3 + length new2). reflexivity.
Qed.

Lemma prev_main_names (sdk : Engine) (d sshUsername : string)
    (keyFile : string * option error) :
  exists k,
    namesOf (calls (snd (MainGoPrev.main sdk d sshUsername keyFile emptyContext)))
    = firstn k prevNames.
Proof.
  destruct keyFile as [key [err |]]; [exists 0; reflexivity |].
  destruct (MainGoPrev.main sdk d sshUsername (key, None) emptyContext) as [result ctx'] eqn:E.
  destruct (prev_main_run_eq sdk d sshUsername key result ctx' E) as (_ & r1 & Hrun1).
  exists (length (calls ctx')). cbn [snd].
  exact (LoopRun_names (prevChainRegistration (connectionOf sshUsername key))
           _ _ _ _ _ _ (fun _ _ => eq_refl) Hrun1).
Qed.

Lemma names_NoDup :
  NoDup mainGoNames /\ NoDup part000Names /\ NoDup prevNames.
Proof.
  repeat split;
    repeat (constructor; [cbn; intuition discriminate |]); constructor.
Qed.

(** C8. In every run of [main], of each of the three revisions, started on
    a fresh context, no two calls of [NewCommand] carry the same resource
    name, whatever the configuration, the key file and the answers of the
    SDK: the names registered are a prefix of the revision's list of names,
    which has no repetition ([update-system] included). *)
Theorem registered_names_distinct (sdk : Engine) (d sshUsername : string)
    (keyFile : string * option error) (now : string) :
  NoDup (namesOf (calls (snd (MainGo.main sdk d sshUsername keyFile now emptyContext)))) /\
  NoDup (namesOf (calls (snd (Part000.main sdk d sshUsername keyFile emptyContext)))) /\
  NoDup (namesOf (calls (snd (MainGoPrev.main sdk d sshUsername keyFile emptyContext)))).
Proof.
  destruct names_NoDup as (H1 & H2 & H3).
  destruct (main_names sdk d sshUsername keyFile now) as (k1 & ->).
  destruct (part000_main_names sdk d sshUsername keyFile) as (k2 & ->).
  destruct (prev_main_names sdk d sshUsername keyFile) as (k3 & ->).
  repeat split; apply NoDup_firstn; assumption.
Qed.

(** ** Triggers *)

(** C9. In main.go (first document) every call made by the chain executor
    and by the independent-set executor runs the text of its command and
    has that text as its one trigger; in a run of [main] the first call, if
    there is one, is [update-system] with the formatted current time [now]
    as its one trigger, and every later call has its own text as its one
    trigger. *)
Theorem triggers_of_registrations (sdk : Engine) (update_cmd : CommandPtr)
    (commands : list command) (connection : ConnectionArgs) (ctx : Context)
    (d sshUsername : string) (keyFile : string * option error) (now : string) :
  (forall i call,
     nth_error (newCalls ctx (snd (MainGo.runOrderedCommands sdk update_cmd commands
                                     connection ctx))) i = Some call ->
     exists c, nth_error commands i = Some c /\
       Create (reg_args (call_reg call)) = cmd c /\
       Triggers (reg_args (call_reg call)) = [cmd c]) /\
  (forall i call,
     nth_error (newCalls ctx (snd (MainGo.runIndependentCommands sdk commands
                                     connection ctx))) i = Some call ->
     exists c, nth_error commands i = Some c /\
       Create (reg_args (call_reg call)) = cmd c /\
       Triggers (reg_args (call_reg call)) = [cmd c]) /\
  match calls (snd (MainGo.main sdk d sshUsername keyFile now emptyContext)) with
  | [] => True
  | first :: rest =>
      reg_name (call_reg first) = "update-system" /\
      Triggers (reg_args (call_reg first)) = [now] /\
      Forall (fun call => triggeredByText (call_reg call)) rest
  end.
Proof.
  split; [| split].
  - intros i call Hi.
    destruct (runOrderedCommands_run sdk connection update_cmd commands ctx)
      as (new & Hcalls & Hrun).
    rewrite (newCalls_app _ _ _ Hcalls) in Hi.
    destruct (LoopRun_nth _ _ _ _ _ _ _ Hrun i call Hi) as (c & Hc & Hreg).
    exists c. rewrite Hreg. repeat split. exact Hc.
  - intros i call Hi.
    destruct (runIndependentCommands_run sdk connection commands None ctx)
      as (new & Hcalls & Hrun).
    rewrite (newCalls_app _ _ _ Hcalls) in Hi.
    destruct (LoopRun_nth _ _ _ _ _ _ _ Hrun i call Hi) as (c & Hc & Hreg).
    exists c. rewrite Hreg. repeat split. exact Hc.
  - destruct keyFile as [key [err |]]; [exact I |].
    destruct (supported d) eqn:Hd; [| rewrite main_unsupported by exact Hd; exact I].
    destruct (main_run sdk d sshUsername key now Hd)
      as (first & new1 & new2 & r1 & Hall & Hfirst & Hrest).
    rewrite Hall, Hfirst. split; [reflexivity |]. split; [reflexivity |].
    destruct (call_err first) as [err |].
    + destruct Hrest as (-> & -> & _). constructor.
    + destruct Hrest as (Hrun1 & Hrest). apply Forall_app. split.
      * apply (LoopRun_registrations (chainRegistration (connectionOf sshUsername key))
                 _ _ triggeredByText _ _ _ _ (fun _ _ => eq_refl) Hrun1).
      * destruct r1 as [err1 |]; [destruct Hrest as (-> & _); constructor |].
        apply (LoopRun_registrations
                 (fun _ => independentRegistration (connectionOf sshUsername key))
                 _ _ triggeredByText _ _ _ _ (fun _ _ => eq_refl) Hrest).
Qed.

(** ** Errors and the result of [main] *)

(** What [main] of main.go (first document) returns for each kind of
    error: a failed read of the key, an unsupported distribution, and a
    refused registration all come back to the caller of [main], wrapped. *)
Lemma main_returns_errors (sdk : Engine) (d sshUsername key now : string) :
  (forall err,
     fst (MainGo.main sdk d sshUsername (key, Some err) now emptyContext)
     = Some (wrapError ("failed to read private key: " ++ Error err) err)) /\
  (supported d = false ->
     fst (MainGo.main sdk d sshUsername (key, None) now emptyContext)
     = Some (wrapError ("failed to get install command: unsupported distribution: " ++ d)
               (errorString ("unsupported distribution: " ++ d)))) /\
  (forall call err,
     In call (calls (snd (MainGo.main sdk d sshUsername (key, None) now emptyContext))) ->
     call_err call = Some err ->
     exists msg,
       fst (MainGo.main sdk d sshUsername (key, None) now emptyContext)
       = Some (wrapError msg err)).
Proof.
  split; [reflexivity |]. split.
  - intros Hd. rewrite main_unsupported by exact Hd. reflexivity.
  - intros call err Hin Herr.
    destruct (supported d) eqn:Hd;
      [| rewrite main_unsupported in Hin by exact Hd; destruct Hin].
    destruct (main_run sdk d sshUsername key now Hd)
      as (first & new1 & new2 & r1 & Hall & Hfirst & Hrest).
    rewrite Hall in Hin.
    destruct Hin as [<- | Hin].
    + rewrite Herr in Hrest. destruct Hrest as (_ & _ & ->). eexists. reflexivity.
    + destruct (call_err first) as [err0 |];
        [destruct Hrest as (-> & -> & _); destruct Hin |].
      destruct Hrest as (Hrun1 & Hrest).
      apply in_app_or in Hin. destruct Hin as [Hin | Hin];
        apply In_nth_error in Hin; destruct Hin as (i & Hi).
      * destruct (LoopRun_failure _ _ _ _ _ _ _ Hrun1 i call err Hi Herr)
          as (_ & c & _ & ->).
        destruct Hrest as (_ & ->). eexists. reflexivity.
      * destruct r1 as [err1 |]; [destruct Hrest as (-> & _); destruct i; discriminate |].
        destruct (LoopRun_failure _ _ _ _ _ _ _ Hrest i call err Hi Herr)
          as (_ & c & _ & ->).
        eexists. reflexivity.
Qed.



(** The same run, with what it leaves on the log and on standard output. *)
Example part000_refused_install_packages :
  Part000.main (refuseFrom 1) "fedora" "ismail" ("KEY", None) emptyContext
  = (None,
     {| calls :=
          [ {| call_reg := part000ChainRegistration (connectionOf "ismail" "KEY") None
                             (Command "update-system" "sudo dnf update -y");
               call_result := CommandRef 0;
               call_err := None |};
            {| call_reg :=
                 part000ChainRegistration (connectionOf "ismail" "KEY") (Some (CommandRef 0))
                   (Command "install-packages"
                      "sudo dnf install -y curl less git man-db zsh fedora-packager fedora-review");
               call_result := NilCommand;
               call_err := Some (errorString
                 "ssh: connect to host localhost port 32222: connection refused") |} ];
        output :=
          [ LogInfo "Running command: 'sudo dnf update -y'";
            LogInfo "Running command: 'sudo dnf install -y curl less git man-db zsh fedora-packager fedora-review'";
            Stdout "failed to run command 'sudo dnf install -y curl less git man-db zsh fedora-packager fedora-review': ssh: connect to host localhost port 32222: connection refused" ] |}).
Proof.
  reflexivity.
Qed.

(** C6, on the second document of main.go.  [main] returns nil in every
    run in which the key file was read: the errors of [installCmd] and
    [updateCmd] are never looked at, and a refused registration is printed
    and followed by [return nil].  With the distribution [arch] and an SDK
    that accepts everything, all ten commands are registered, the first
    with the empty text [installCmd] and [updateCmd] return beside their
    error; with an SDK that refuses, the result is nil as well. *)
Theorem prev_main_returns_nil (sdk : Engine) (d sshUsername key : string) :
  fst (MainGoPrev.main sdk d sshUsername (key, None) emptyContext) = None /\
  snd (MainGoPrev.installCmd "arch") = Some (errorString "unsupported distribution: arch") /\
  fst (MainGoPrev.main acceptAll "arch" "ismail" ("KEY", None) emptyContext) = None /\
  map (fun call => Create (reg_args (call_reg call)))
      (firstn 2 (calls (snd (MainGoPrev.main acceptAll "arch" "ismail" ("KEY", None)
                               emptyContext))))
  = [EmptyString; "sudo  git zsh"] /\
  length (calls (snd (MainGoPrev.main acceptAll "arch" "ismail" ("KEY", None) emptyContext)))
  = 10 /\
  MainGoPrev.main refuseAll "fedora" "ismail" ("KEY", None) emptyContext
  = (None,
     {| calls :=
          [ {| call_reg := prevChainRegistration (connectionOf "ismail" "KEY") None
                             (Command "update-system" "sudo dnf update -y");
               call_result := NilCommand;
               call_err := Some (errorString
                 "ssh: connect to host localhost port 32222: connection refused") |} ];
        output :=
          [ LogInfo "Running command: 'sudo dnf update -y'";
            Stdout "failed to run command 'sudo dnf update -y': ssh: connect to host localhost port 32222: connection refused" ] |}).
Proof.
  split; [| repeat split].
  destruct (MainGoPrev.main sdk d sshUsername (key, None) emptyContext) as [result ctx'] eqn:E.
  destruct (prev_main_run_eq sdk d sshUsername key result ctx' E) as (-> & _).
  reflexivity.
Qed.

(** * Further properties of the code *)

(** ** Refusals *)

Lemma runOrderedCommands_failure_run :
  length (newCalls emptyContext
            (snd (MainGo.runOrderedCommands (refuseFrom 1) (CommandRef 100)
                    [Command "a" "echo a"; Command "b" "echo b"; Command "c" "echo c"]
                    (connectionOf "ismail" "KEY") emptyContext))) = 2 /\
  exists c,
    nth_error [Command "a" "echo a"; Command "b" "echo b"; Command "c" "echo c"] 1 = Some c /\
    fst (MainGo.runOrderedCommands (refuseFrom 1) (CommandRef 100)
           [Command "a" "echo a"; Command "b" "echo b"; Command "c" "echo c"]
           (connectionOf "ismail" "KEY") emptyContext)
    = Some (wrapError
              ("failed to run command '" ++ cmd c ++ "': "
               ++ Error (errorString "ssh: connect to host localhost port 32222: connection refused"))
              (errorString "ssh: connect to host localhost port 32222: connection refused")).
Proof.
  apply (runOrderedCommands_failure (refuseFrom 1) (CommandRef 100)
           [Command "a" "echo a"; Command "b" "echo b"; Command "c" "echo c"]
           (connectionOf "ismail" "KEY") emptyContext 1
           (callOf (refuseFrom 1)
              [callOf (refuseFrom 1) []
                 (chainRegistration (connectionOf "ismail" "KEY") (Some (CommandRef 100))
                    (Command "a" "echo a"))]
              (chainRegistration (connectionOf "ismail" "KEY") (Some (CommandRef 0))
                 (Command "b" "echo b"))));
    reflexivity.
Defined.

(** In a run of [main], of any of the three revisions, started on a fresh
    context, a refused registration is the last call of the run: nothing is
    registered after a refusal, whichever command was refused. *)
Theorem refused_call_is_last (sdk : Engine) (d sshUsername : string)
    (keyFile : string * option error) (now : string) :
  (forall k call err,
     nth_error (calls (snd (MainGo.main sdk d sshUsername keyFile now emptyContext))) k
       = Some call ->
     call_err call = Some err ->
     length (calls (snd (MainGo.main sdk d sshUsername keyFile now emptyContext))) = S k) /\
  (forall k call err,
     nth_error (calls (snd (Part000.main sdk d sshUsername keyFile emptyContext))) k
       = Some call ->
     call_err call = Some err ->
     length (calls (snd (Part000.main sdk d sshUsername keyFile emptyContext))) = S k) /\
  (forall k call err,
     nth_error (calls (snd (MainGoPrev.main sdk d sshUsername keyFile emptyContext))) k
       = Some call ->
     call_err call = Some err ->
     length (calls (snd (MainGoPrev.main sdk d sshUsername keyFile emptyContext))) = S k).
Proof.
  destruct keyFile as [key [kerr |]];
    [repeat split; intros k call err Hk; destruct k; discriminate |].
  split; [| split]; intros k call err Hnth Herr.
  - destruct (supported d) eqn:Hd;
      [| rewrite main_unsupported in Hnth by exact Hd; destruct k; discriminate].
    destruct (main_run sdk d sshUsername key now Hd)
      as (first & new1 & new2 & r1 & Hall & _ & Hrest).
    rewrite Hall in *. destruct k as [| j]; cbn [nth_error] in Hnth.
    + injection Hnth as ->. rewrite Herr in Hrest. destruct Hrest as (-> & -> & _). reflexivity.
    + destruct (call_err first) as [err0 |];
        [destruct Hrest as (-> & -> & _); destruct j; discriminate |].
      destruct Hrest as (Hrun1 & Hrest). cbn [length]. rewrite length_app. f_equal.
      destruct (Nat.lt_ge_cases j (length new1)) as [Hj | Hj].
      * rewrite nth_error_app1 in Hnth by exact Hj.
        destruct (LoopRun_failure _ _ _ _ _ _ _ Hrun1 j call err Hnth Herr)
          as (Hlen & c & _ & ->).
        destruct Hrest as (-> & _). cbn [length]. lia.
      * rewrite nth_error_app2 in Hnth by exact Hj.
        destruct r1 as [err1 |]; [destruct Hrest as (-> & _); destruct (j - _); discriminate |].
        destruct (LoopRun_failure _ _ _ _ _ _ _ Hrest _ call err Hnth Herr) as (Hlen & _).
        lia.
  - destruct (supported d) eqn:Hd;
      [| rewrite part000_main_unsupported in Hnth by exact Hd; destruct k; discriminate].
    destruct (Part000.main sdk d sshUsername (key, None) emptyContext) as [result ctx'] eqn:E.
    destruct (part000_main_run_eq sdk d sshUsername key result ctx' Hd E)
      as (new1 & new2 & r1 & Hall & Hrun1 & Hrest).
    cbn [snd] in *. rewrite Hall in *. rewrite length_app.
    destruct (Nat.lt_ge_cases k (length new1)) as [Hk | Hk].
    + rewrite nth_error_app1 in Hnth by exact Hk.
      destruct (LoopRun_failure _ _ _ _ _ _ _ Hrun1 k call err Hnth Herr)
        as (Hlen & c & _ & ->).
      destruct Hrest as (-> & _). cbn [length]. lia.
    + rewrite nth_error_app2 in Hnth by exact Hk.
      destruct r1 as [r |]; [destruct Hrest as (-> & _); destruct (k - _); discriminate |].
      destruct Hrest as (r2 & Hrun2 & _).
      destruct (LoopRun_failure _ _ _ _ _ _ _ Hrun2 _ call err Hnth Herr) as (Hlen & _).
      lia.
  - destruct (MainGoPrev.main sdk d sshUsername (key, None) emptyContext) as [result ctx'] eqn:E.
    destruct (prev_main_run_eq sdk d sshUsername key result ctx' E) as (_ & r1 & Hrun1).
    cbn [snd] in *.
    exact (proj1 (LoopRun_failure _ _ _ _ _ _ _ Hrun1 k call err Hnth Herr)).
Qed.

(** ** Who depends on whom in a run of [main] *)

Lemma nth_error_lt {A : Type} (l : list A) (i : nat) (x : A) :
  nth_error l i = Some x -> i < length l.
Proof.
  intros H. apply nth_error_Some. congruence.
Qed.

(** A loop that starts from the nil [lastResource] and guards [DependsOn]
    by [lastResource != nil]: no option on the first call, the previous
    result on every later one. *)
Lemma guarded_chain_opts {R : Type} (regOf : Resource -> command -> Registration)
    (failed : command -> error -> R) (finished : R)
    (cmds : list command) (new : list Call) (r : R) :
  (forall previous c, reg_opts (regOf previous c) = guardedOpts previous) ->
  LoopRun regOf failed finished None cmds new r ->
  forall i call, nth_error new i = Some call ->
  reg_opts (call_reg call)
  = match i with
    | 0 => []
    | S j => [DependsOn [option_map call_result (nth_error new j)]]
    end.
Proof.
  intros Hopts Hrun i call Hi.
  destruct (LoopRun_nth _ _ _ _ _ _ _ Hrun i call Hi) as (c & _ & Hreg).
  rewrite Hreg, Hopts. destruct i as [| j]; [reflexivity |].
  cbn [predecessor]. apply nth_error_lt in Hi.
  destruct (nth_error new j) as [x |] eqn:E; [reflexivity |].
  apply nth_error_None in E. lia.
Qed.

(** In a run of [main] of main.go (first document) the first call,
    update-system, depends on nothing; each of the calls 1 to 7, the chain,
    depends on exactly what the call before it returned, so install-packages
    depends on update-system; every later call, the independent set, depends
    on nothing. *)
Theorem main_dependencies (sdk : Engine) (d sshUsername : string)
    (keyFile : string * option error) (now : string) (i : nat) (call : Call) :
  nth_error (calls (snd (MainGo.main sdk d sshUsername keyFile now emptyContext))) i
    = Some call ->
  reg_opts (call_reg call)
  = chainedOpts 1 7 (calls (snd (MainGo.main sdk d sshUsername keyFile now emptyContext))) i.
Proof.
  intros Hnth.
  destruct keyFile as [key [kerr |]]; [destruct i; discriminate |].
  destruct (supported d) eqn:Hd;
    [| rewrite main_unsupported in Hnth by exact Hd; destruct i; discriminate].
  destruct (main_run sdk d sshUsername key now Hd)
    as (first & new1 & new2 & r1 & Hall & Hfirst & Hrest).
  rewrite Hall in *. destruct i as [| j]; cbn [nth_error] in Hnth.
  - injection Hnth as <-. rewrite Hfirst. reflexivity.
  - destruct (call_err first) as [err0 |];
      [destruct Hrest as (-> & -> & _); destruct j; discriminate |].
    destruct Hrest as (Hrun1 & Hrest).
    pose proof (LoopRun_length _ _ _ _ _ _ _ Hrun1) as Hlen1.
    change (length (MainGo.setup_commands _ _)) with 7 in Hlen1.
    unfold chainedOpts, previousResult. cbn [Nat.leb andb].
    replace (S j - 1) with j by lia.
    destruct (Nat.lt_ge_cases j (length new1)) as [Hj | Hj].
    + rewrite nth_error_app1 in Hnth by exact Hj.
      destruct (LoopRun_nth _ _ _ _ _ _ _ Hrun1 j call Hnth) as (c & _ & Hreg).
      rewrite Hreg. cbn [reg_opts chainRegistration].
      replace (Nat.leb j 6) with true by (symmetry; apply Nat.leb_le; lia).
      destruct j as [| j']; [reflexivity |].
      cbn [predecessor nth_error]. rewrite nth_error_app1 by lia. reflexivity.
    + rewrite nth_error_app2 in Hnth by exact Hj.
      destruct r1 as [err1 |]; [destruct Hrest as (-> & _); destruct (j - _); discriminate |].
      assert (Hfull : length new1
                      = length (MainGo.setup_commands (fst (MainGo.installCmd d))
                                                      (MainGo.extraPackagesForDistro d))).
      { eapply proj1, LoopRun_finished; [| exact Hrun1 | reflexivity]. intros; discriminate. }
      change (length (MainGo.setup_commands _ _)) with 7 in Hfull.
      destruct (LoopRun_nth _ _ _ _ _ _ _ Hrest _ call Hnth) as (c & _ & Hreg).
      rewrite Hreg. cbn [reg_opts independentRegistration].
      replace (Nat.leb j 6) with false by (symmetry; apply Nat.leb_gt; lia).
      reflexivity.
Qed.

Lemma main_dependencies_run :
  reg_opts (call_reg
    {| call_reg :=
         chainRegistration (connectionOf "ismail" "KEY") (Some (CommandRef 0))
           (Command "install-packages"
              "sudo dnf install -y bpftrace clang cmake curl gcc gdb git less llvm man-db mold pkgconf sysstat zsh fedora-packager fedora-review gcc-c++ ninja perf");
       call_result := CommandRef 1;
       call_err := None |})
  = chainedOpts 1 7
      (calls (snd (MainGo.main acceptAll "fedora" "ismail" ("KEY", None)
                     "2026-01-01T00:00:00Z" emptyContext))) 1.
Proof.
  apply (main_dependencies acceptAll "fedora" "ismail" ("KEY", None) "2026-01-01T00:00:00Z" 1).
  reflexivity.
Defined.

(** In the two earlier revisions the chain has no anchor.  In a run of
    [main] of part_000 the first call (update-system) depends on nothing,
    calls 1 and 2 each depend on exactly what the call before returned, and
    the calls of the independent loop depend on nothing.  In a run of
    [main] of main.go's second document every call but the first depends on
    exactly what the call before it returned. *)
Theorem earlier_revisions_dependencies (sdk : Engine) (d sshUsername : string)
    (keyFile : string * option error) :
  (forall i call,
     nth_error (calls (snd (Part000.main sdk d sshUsername keyFile emptyContext))) i
       = Some call ->
     reg_opts (call_reg call)
     = chainedOpts 1 2 (calls (snd (Part000.main sdk d sshUsername keyFile emptyContext))) i) /\
  (forall i call,
     nth_error (calls (snd (MainGoPrev.main sdk d sshUsername keyFile emptyContext))) i
       = Some call ->
     reg_opts (call_reg call)
     = chainedOpts 1 9 (calls (snd (MainGoPrev.main sdk d sshUsername keyFile emptyContext))) i).
Proof.
  destruct keyFile as [key [kerr |]];
    [split; intros i call Hi; destruct i; discriminate |].
  split; intros i call Hnth.
  - destruct (supported d) eqn:Hd;
      [| rewrite part000_main_unsupported in Hnth by exact Hd; destruct i; discriminate].
    destruct (Part000.main sdk d sshUsername (key, None) emptyContext) as [result ctx'] eqn:E.
    destruct (part000_main_run_eq sdk d sshUsername key result ctx' Hd E)
      as (new1 & new2 & r1 & Hall & Hrun1 & Hrest).
    cbn [snd] in *. rewrite Hall in *.
    pose proof (LoopRun_length _ _ _ _ _ _ _ Hrun1) as Hlen1.
    change (length (Part000.base_commands _ _ _)) with 3 in Hlen1.
    unfold chainedOpts, previousResult.
    destruct (Nat.lt_ge_cases i (length new1)) as [Hi | Hi].
    + rewrite nth_error_app1 in Hnth by exact Hi.
      rewrite (guarded_chain_opts (part000ChainRegistration (connectionOf sshUsername key))
                 _ _ _ _ _ (fun _ _ => eq_refl) Hrun1 i call Hnth).
      destruct i as [| j]; [reflexivity |].
      cbn [Nat.leb andb]. replace (S j - 1) with j by lia.
      replace (Nat.leb j 1) with true by (symmetry; apply Nat.leb_le; lia).
      rewrite nth_error_app1 by lia. reflexivity.
    + rewrite nth_error_app2 in Hnth by exact Hi.
      destruct r1 as [r |]; [destruct Hrest as (-> & _); destruct (i - _); discriminate |].
      destruct Hrest as (r2 & Hrun2 & _).
      assert (Hfull : length new1
                      = length (Part000.base_commands (fst (Part000.installCmd d))
                                  (fst (Part000.updateCmd d)) (Part000.extraPackagesForDistro d))).
      { eapply proj1, LoopRun_finished; [| exact Hrun1 | reflexivity]. intros; discriminate. }
      change (length (Part000.base_commands _ _ _)) with 3 in Hfull.
      destruct (LoopRun_nth _ _ _ _ _ _ _ Hrun2 _ call Hnth) as (c & _ & Hreg).
      rewrite Hreg. cbn [reg_opts part000IndependentRegistration].
      replace (Nat.leb i 2) with false by (symmetry; apply Nat.leb_gt; lia).
      rewrite andb_false_r. reflexivity.
  - destruct (MainGoPrev.main sdk d sshUsername (key, None) emptyContext) as [result ctx'] eqn:E.
    destruct (prev_main_run_eq sdk d sshUsername key result ctx' E) as (_ & r1 & Hrun1).
    cbn [snd] in *.
    pose proof (LoopRun_length _ _ _ _ _ _ _ Hrun1) as Hlen1.
    change (length (MainGoPrev.commands _ _)) with 10 in Hlen1.
    pose proof (nth_error_lt _ _ _ Hnth) as Hi.
    rewrite (guarded_chain_opts (prevChainRegistration (connectionOf sshUsername key))
               _ _ _ _ _ (fun _ _ => eq_refl) Hrun1 i call Hnth).
    unfold chainedOpts, previousResult.
    destruct i as [| j]; [reflexivity |].
    cbn [Nat.leb andb]. replace (S j - 1) with j by lia.
    replace (Nat.leb j 8) with true by (symmetry; apply Nat.leb_le; lia).
    reflexivity.
Qed.

(** ** What every registration of a run carries *)

(** Every command registered in a run of [main], in each revision, is sent
    over the one connection built at the start: localhost, port 32222, the
    configured user, and the contents of the key file. *)
Theorem connection_of_every_call (sdk : Engine) (d sshUsername : string)
    (keyFile : string * option error) (now : string) :
  Forall (fun call => Connection (reg_args (call_reg call))
                      = {| Host := "localhost"; Port := 32222%Z; User := sshUsername;
                           PrivateKey := fst keyFile |})
         (calls (snd (MainGo.main sdk d sshUsername keyFile now emptyContext))) /\
  Forall (fun call => Connection (reg_args (call_reg call))
                      = {| Host := "localhost"; Port := 32222%Z; User := sshUsername;
                           PrivateKey := fst keyFile |})
         (calls (snd (Part000.main sdk d sshUsername keyFile emptyContext))) /\
  Forall (fun call => Connection (reg_args (call_reg call))
                      = {| Host := "localhost"; Port := 32222%Z; User := sshUsername;
                           PrivateKey := fst keyFile |})
         (calls (snd (MainGoPrev.main sdk d sshUsername keyFile emptyContext))).
Proof.
  destruct keyFile as [key [kerr |]]; [repeat split; constructor |].
  cbn [fst]. fold (connectionOf sshUsername key).
  set (P := fun reg => Connection (reg_args reg) = connectionOf sshUsername key).
  change (Forall (fun call => P (call_reg call))
            (calls (snd (MainGo.main sdk d sshUsername (key, None) now emptyContext))) /\
          Forall (fun call => P (call_reg call))
            (calls (snd (Part000.main sdk d sshUsername (key, None) emptyContext))) /\
          Forall (fun call => P (call_reg call))
            (calls (snd (MainGoPrev.main sdk d sshUsername (key, None) emptyContext)))).
  split; [| split].
  - destruct (supported d) eqn:Hd; [| rewrite main_unsupported by exact Hd; constructor].
    destruct (main_run sdk d sshUsername key now Hd)
      as (first & new1 & new2 & r1 & Hall & Hfirst & Hrest).
    rewrite Hall. constructor; [rewrite Hfirst; reflexivity |].
    destruct (call_err first) as [err0 |]; [destruct Hrest as (-> & -> & _); constructor |].
    destruct Hrest as (Hrun1 & Hrest). apply Forall_app. split.
    + apply (LoopRun_registrations (chainRegistration (connectionOf sshUsername key))
               _ _ P _ _ _ _ (fun _ _ => eq_refl) Hrun1).
    + destruct r1 as [err1 |]; [destruct Hrest as (-> & _); constructor |].
      apply (LoopRun_registrations
               (fun _ => independentRegistration (connectionOf sshUsername key))
               _ _ P _ _ _ _ (fun _ _ => eq_refl) Hrest).
  - destruct (supported d) eqn:Hd;
      [| rewrite part000_main_unsupported by exact Hd; constructor].
    destruct (Part000.main sdk d sshUsername (key, None) emptyContext) as [result ctx'] eqn:E.
    destruct (part000_main_run_eq sdk d sshUsername key result ctx' Hd E)
      as (new1 & new2 & r1 & Hall & Hrun1 & Hrest).
    cbn [snd]. rewrite Hall. apply Forall_app. split.
    + apply (LoopRun_registrations (part000ChainRegistration (connectionOf sshUsername key))
               _ _ P _ _ _ _ (fun _ _ => eq_refl) Hrun1).
    + destruct r1 as [r |]; [destruct Hrest as (-> & _); constructor |].
      destruct Hrest as (r2 & Hrun2 & _).
      apply (LoopRun_registrations
               (fun _ => part000IndependentRegistration (connectionOf sshUsername key))
               _ _ P _ _ _ _ (fun _ _ => eq_refl) Hrun2).
  - destruct (MainGoPrev.main sdk d sshUsername (key, None) emptyContext) as [result ctx'] eqn:E.
    destruct (prev_main_run_eq sdk d sshUsername key result ctx' E) as (_ & r1 & Hrun1).
    cbn [snd].
    apply (LoopRun_registrations (prevChainRegistration (connectionOf sshUsername key))
             _ _ P _ _ _ _ (fun _ _ => eq_refl) Hrun1).
Qed.

(** The triggers of the two earlier revisions.  In part_000 every
    registration, update-system included, has the text it runs as its one
    trigger (no registration is triggered by the time); in main.go's second
    document no registration has any trigger. *)
Theorem triggers_of_earlier_revisions (sdk : Engine) (d sshUsername : string)
    (keyFile : string * option error) :
  Forall (fun call => triggeredByText (call_reg call))
         (calls (snd (Part000.main sdk d sshUsername keyFile emptyContext))) /\
  Forall (fun call => Triggers (reg_args (call_reg call)) = [])
         (calls (snd (MainGoPrev.main sdk d sshUsername keyFile emptyContext))).
Proof.
  destruct keyFile as [key [kerr |]]; [split; constructor |].
  split.
  - destruct (supported d) eqn:Hd;
      [| rewrite part000_main_unsupported by exact Hd; constructor].
    destruct (Part000.main sdk d sshUsername (key, None) emptyContext) as [result ctx'] eqn:E.
    destruct (part000_main_run_eq sdk d sshUsername key result ctx' Hd E)
      as (new1 & new2 & r1 & Hall & Hrun1 & Hrest).
    cbn [snd]. rewrite Hall. apply Forall_app. split.
    + apply (LoopRun_registrations (part000ChainRegistration (connectionOf sshUsername key))
               _ _ triggeredByText _ _ _ _ (fun _ _ => eq_refl) Hrun1).
    + destruct r1 as [r |]; [destruct Hrest as (-> & _); constructor |].
      destruct Hrest as (r2 & Hrun2 & _).
      apply (LoopRun_registrations
               (fun _ => part000IndependentRegistration (connectionOf sshUsername key))
               _ _ triggeredByText _ _ _ _ (fun _ _ => eq_refl) Hrun2).
  - destruct (MainGoPrev.main sdk d sshUsername (key, None) emptyContext) as [result ctx'] eqn:E.
    destruct (prev_main_run_eq sdk d sshUsername key result ctx' E) as (_ & r1 & Hrun1).
    cbn [snd].
    apply (LoopRun_registrations (prevChainRegistration (connectionOf sshUsername key))
             _ _ (fun reg => Triggers (reg_args reg) = []) _ _ _ _ (fun _ _ => eq_refl) Hrun1).
Qed.

(** ** When [main] of main.go returns nil *)


(** ** Validation comes before any registration *)

(** When the key file cannot be read, or (in main.go's first document and
    in part_000) the distribution is not supported, [main] returns an error
    and leaves the context as it found it: nothing is registered and
    nothing is logged.  In main.go's second document this holds for the key
    file only. *)
Theorem nothing_registered_before_validation (sdk : Engine) (d sshUsername : string)
    (keyFile : string * option error) (now : string) (ctx : Context) :
  (snd keyFile <> None \/ supported d = false ->
   snd (MainGo.main sdk d sshUsername keyFile now ctx) = ctx /\
   fst (MainGo.main sdk d sshUsername keyFile now ctx) <> None) /\
  (snd keyFile <> None \/ supported d = false ->
   snd (Part000.main sdk d sshUsername keyFile ctx) = ctx /\
   fst (Part000.main sdk d sshUsername keyFile ctx) <> None) /\
  (forall err, snd keyFile = Some err ->
   MainGo.main sdk d sshUsername keyFile now ctx
   = (Some (wrapError ("failed to read private key: " ++ Error err) err), ctx) /\
   Part000.main sdk d sshUsername keyFile ctx
   = (Some (wrapError ("failed to read private key: " ++ Error err) err), ctx) /\
   MainGoPrev.main sdk d sshUsername keyFile ctx
   = (Some (wrapError ("failed to read private key: " ++ Error err) err), ctx)).
Proof.
  destruct keyFile as [key [kerr |]]; cbn [snd].
  - split; [| split].
    + intros _. split; [reflexivity | discriminate].
    + intros _. split; [reflexivity | discriminate].
    + intros err [= <-]. repeat split.
  - split; [| split].
    + intros [H | Hd]; [congruence |].
      rewrite main_unsupported by exact Hd. split; [reflexivity | discriminate].
    + intros [H | Hd]; [congruence |].
      rewrite part000_main_unsupported by exact Hd. split; [reflexivity | discriminate].
    + intros err H. discriminate.
Qed.

(** ** Ubuntu and Debian *)

(** The three revisions treat [ubuntu] and [debian] alike: with the same
    SDK, user and key file the two runs register the same commands with the
    same answers and return the same result.  (In main.go's first document
    and in part_000 the two runs differ at most in the closing log line,
    which names the distribution.) *)
Theorem ubuntu_debian_same_run (sdk : Engine) (sshUsername : string)
    (keyFile : string * option error) (now : string) (ctx : Context) :
  (fst (MainGo.main sdk "ubuntu" sshUsername keyFile now ctx)
   = fst (MainGo.main sdk "debian" sshUsername keyFile now ctx) /\
   calls (snd (MainGo.main sdk "ubuntu" sshUsername keyFile now ctx))
   = calls (snd (MainGo.main sdk "debian" sshUsername keyFile now ctx))) /\
  (fst (Part000.main sdk "ubuntu" sshUsername keyFile ctx)
   = fst (Part000.main sdk "debian" sshUsername keyFile ctx) /\
   calls (snd (Part000.main sdk "ubuntu" sshUsername keyFile ctx))
   = calls (snd (Part000.main sdk "debian" sshUsername keyFile ctx))) /\
  MainGoPrev.main sdk "ubuntu" sshUsername keyFile ctx
  = MainGoPrev.main sdk "debian" sshUsername keyFile ctx.
Proof.
  destruct keyFile as [key [kerr |]]; [repeat split |].
  split; [| split].
  - unfold MainGo.main. cbn [fst snd].
    change (MainGo.installCmd "ubuntu") with ("sudo apt-get install -y", @None error).
    change (MainGo.installCmd "debian") with ("sudo apt-get install -y", @None error).
    change (MainGo.updateCmd "ubuntu")
      with ("sudo apt-get update && sudo apt-get dist-upgrade -y", @None error).
    change (MainGo.updateCmd "debian")
      with ("sudo apt-get update && sudo apt-get dist-upgrade -y", @None error).
    change (MainGo.extraPackagesForDistro "ubuntu")
      with (MainGo.extraPackagesForDistro "debian").
    cbn [fst snd]. unfold bind.
    destruct (NewCommand sdk "update-system" _ [] ctx) as [b ctx1].
    destruct (snd b); [split; reflexivity |].
    destruct (MainGo.runOrderedCommands sdk (fst b) _ _ ctx1) as [e1 ctx2].
    destruct e1; [split; reflexivity |].
    destruct (MainGo.runIndependentCommands sdk MainGo.extra_commands _ ctx2) as [e2 ctx3].
    destruct e2; split; reflexivity.
  - unfold Part000.main. cbn [fst snd].
    change (Part000.installCmd "ubuntu") with ("apt-get install -y", @None error).
    change (Part000.installCmd "debian") with ("apt-get install -y", @None error).
    change (Part000.updateCmd "ubuntu") with (Part000.updateCmd "debian").
    change (snd (Part000.updateCmd "debian")) with (@None error).
    change (Part000.extraPackagesForDistro "ubuntu")
      with (Part000.extraPackagesForDistro "debian").
    cbn [fst snd]. unfold bind.
    destruct (Part000.chainLoop sdk None _ _ ctx) as [left1 ctx1].
    destruct left1; [split; reflexivity |].
    destruct (Part000.independentLoop sdk Part000.commands _ ctx1) as [left2 ctx2].
    destruct left2; split; reflexivity.
  - reflexivity.
Qed.

(** ** What the executors log *)

Section ExecutorLogs.

Variable sdk : Engine.
Variable connection : ConnectionArgs.

Lemma orderedLoop_output (commands : list command) :
  forall (last : Resource) (ctx : Context),
  exists new,
    calls (snd (MainGo.orderedLoop sdk last commands connection ctx)) = (calls ctx ++ new)%list /\
    output (snd (MainGo.orderedLoop sdk last commands connection ctx))
    = (output ctx ++ map infoLine (firstn (length new) commands))%list.
Proof.
  induction commands as [| c rest IH]; intros last ctx.
  - exists []. split; symmetry; apply app_nil_r.
  - rewrite orderedLoop_cons. cbv zeta.
    destruct (snd (sdk (calls ctx) _)).
    + eexists [_]. split; reflexivity.
    + match goal with
      | |- context [MainGo.orderedLoop sdk ?l rest connection ?ctx1] =>
          destruct (IH l ctx1) as (new & Hcalls & Hout)
      end.
      eexists (_ :: new). rewrite Hcalls, Hout. cbn [calls output length firstn map].
      rewrite <- !app_assoc. split; reflexivity.
Qed.

Lemma runIndependentCommands_output (commands : list command) :
  forall (ctx : Context),
  exists new,
    calls (snd (MainGo.runIndependentCommands sdk commands connection ctx))
    = (calls ctx ++ new)%list /\
    output (snd (MainGo.runIndependentCommands sdk commands connection ctx))
    = (output ctx ++ map infoLine (firstn (length new) commands))%list.
Proof.
  induction commands as [| c rest IH]; intros ctx.
  - exists []. split; symmetry; apply app_nil_r.
  - rewrite runIndependentCommands_cons. cbv zeta.
    destruct (snd (sdk (calls ctx) _)).
    + eexists [_]. split; reflexivity.
    + match goal with
      | |- context [MainGo.runIndependentCommands sdk rest connection ?ctx1] =>
          destruct (IH ctx1) as (new & Hcalls & Hout)
      end.
      eexists (_ :: new). rewrite Hcalls, Hout. cbn [calls output length firstn map].
      rewrite <- !app_assoc. split; reflexivity.
Qed.

Lemma runOrderedCommands_output (update_cmd : CommandPtr) (commands : list command)
    (ctx : Context) :
  exists new,
    calls (snd (MainGo.runOrderedCommands sdk update_cmd commands connection ctx))
    = (calls ctx ++ new)%list /\
    output (snd (MainGo.runOrderedCommands sdk update_cmd commands connection ctx))
    = (output ctx ++ map infoLine (firstn (length new) commands))%list.
Proof.
  destruct (orderedLoop_output commands (Some update_cmd) ctx) as (new & Hcalls & Hout).
  exists new. unfold MainGo.runOrderedCommands, bind, ret.
  destruct (MainGo.orderedLoop sdk (Some update_cmd) commands connection ctx) as [[err last] ctx'].
  split; assumption.
Qed.

End ExecutorLogs.

(** Both executors of main.go write to the log exactly one Info line per
    registration they make, before making it, in the order of the list:
    the name of the command, a colon, and its text between single quotes.
    They write nothing else: no Error line and nothing on standard output,
    also when a registration is refused. *)
Theorem executors_log_each_registration (sdk : Engine) (update_cmd : CommandPtr)
    (commands : list command) (connection : ConnectionArgs) (ctx : Context) :
  output (snd (MainGo.runOrderedCommands sdk update_cmd commands connection ctx))
  = (output ctx
     ++ map (fun c => LogInfo (name c ++ ": '" ++ cmd c ++ "'"))
          (firstn (length (newCalls ctx (snd (MainGo.runOrderedCommands sdk update_cmd
                                                commands connection ctx))))
                  commands))%list /\
  output (snd (MainGo.runIndependentCommands sdk commands connection ctx))
  = (output ctx
     ++ map (fun c => LogInfo (name c ++ ": '" ++ cmd c ++ "'"))
          (firstn (length (newCalls ctx (snd (MainGo.runIndependentCommands sdk
                                                commands connection ctx))))
                  commands))%list.
Proof.
  split.
  - destruct (runOrderedCommands_output sdk connection update_cmd commands ctx)
      as (new & Hcalls & Hout).
    rewrite (newCalls_app _ _ _ Hcalls). exact Hout.
  - destruct (runIndependentCommands_output sdk connection commands ctx)
      as (new & Hcalls & Hout).
    rewrite (newCalls_app _ _ _ Hcalls). exact Hout.
Qed.

(** ** What [main] of main.go logs *)

Lemma LoopRun_failed_nonempty {R : Type} (regOf : Resource -> command -> Registration)
    (failed : command -> error -> R) (finished : R) (last : Resource)
    (cmds : list command) (new : list Call) (r : R) :
  LoopRun regOf failed finished last cmds new r ->
  r <> finished ->
  1 <= length new.
Proof.
  intros Hrun Hr. destruct new as [| call new]; [| cbn; lia].
  exfalso. apply Hr. exact (proj2 (LoopRun_success _ _ _ _ _ _ _ Hrun (Forall_nil _))).
Qed.

Lemma main_log_eq (sdk : Engine) (d sshUsername key now : string)
    (result : option error) (ctx' : Context) :
  supported d = true ->
  MainGo.main sdk d sshUsername (key, None) now emptyContext = (result, ctx') ->
  output ctx'
  = (map infoLine
       (firstn (length (calls ctx') - 1)
          (MainGo.setup_commands (fst (MainGo.installCmd d)) (MainGo.extraPackagesForDistro d)
           ++ MainGo.extra_commands))
     ++ closingLines d result (length (calls ctx')))%list.
Proof.
  intros Hd H. destruct (builders_supported d Hd) as (Hi & Hu & _).
  unfold MainGo.main in H. cbn [fst snd] in H. rewrite Hi, Hu in H.
  fold (connectionOf sshUsername key) in H.
  unfold bind at 1 in H. unfold NewCommand at 1 in H.
  cbn [calls output emptyContext app] in H.
  set (setup := MainGo.setup_commands (fst (MainGo.installCmd d))
                  (MainGo.extraPackagesForDistro d)) in *.
  assert (Hsetup : length setup = 7) by reflexivity.
  destruct (sdk [] _) as [ptr answer]. cbn [fst snd] in H.
  destruct answer as [err |].
  - injection H as <- <-. reflexivity.
  - unfold bind at 1 in H.
    match type of H with
    | context [MainGo.runOrderedCommands sdk ptr setup ?conn ?c1] => set (ctx1 := c1) in *
    end.
    destruct (runOrderedCommands_run sdk (connectionOf sshUsername key) ptr setup ctx1)
      as (new1 & Hcalls1 & Hrun1).
    destruct (runOrderedCommands_output sdk (connectionOf sshUsername key) ptr setup ctx1)
      as (new1' & Hcalls1' & Hout1).
    assert (new1' = new1) by (eapply app_inv_head; rewrite <- Hcalls1, <- Hcalls1'; reflexivity).
    subst new1'. clear Hcalls1'.
    pose proof (LoopRun_length _ _ _ _ _ _ _ Hrun1) as Hlen1. rewrite Hsetup in Hlen1.
    destruct (MainGo.runOrderedCommands sdk ptr setup _ ctx1) as [r1 ctx2].
    cbn [fst snd calls output ctx1 app] in Hcalls1, Hout1, Hrun1.
    destruct r1 as [err1 |].
    + unfold bind, Log_Error, ret in H. injection H as <- <-. cbn [calls output].
      pose proof (LoopRun_failed_nonempty _ _ _ _ _ _ _ Hrun1 ltac:(discriminate)) as Hne.
      rewrite Hout1, Hcalls1. cbn [length app].
      replace (S (length new1) - 1) with (length new1) by lia.
      rewrite <- (firstn_app_short _ setup) by lia.
      unfold closingLines.
      replace (Nat.leb (S (length new1)) 1) with false by (symmetry; apply Nat.leb_gt; lia).
      replace (Nat.leb (S (length new1)) 8) with true by (symmetry; apply Nat.leb_le; lia).
      reflexivity.
    + unfold bind at 1 in H.
      assert (Hfull : length new1 = length setup).
      { eapply proj1, LoopRun_finished; [| exact Hrun1 | reflexivity]. intros; discriminate. }
      rewrite Hsetup in Hfull.
      destruct (runIndependentCommands_run sdk (connectionOf sshUsername key)
                  MainGo.extra_commands None ctx2) as (new2 & Hcalls2 & Hrun2).
      destruct (runIndependentCommands_output sdk (connectionOf sshUsername key)
                  MainGo.extra_commands ctx2) as (new2' & Hcalls2' & Hout2).
      assert (new2' = new2) by (eapply app_inv_head; rewrite <- Hcalls2, <- Hcalls2'; reflexivity).
      subst new2'. clear Hcalls2'.
      destruct (MainGo.runIndependentCommands sdk MainGo.extra_commands _ ctx2) as [r2 ctx3].
      cbn [fst snd] in Hcalls2, Hout2, Hrun2.
      assert (Hprefix : firstn (length (calls ctx3) - 1) (setup ++ MainGo.extra_commands)
                        = (setup ++ firstn (length new2) MainGo.extra_commands)%list).
      { rewrite Hcalls2, Hcalls1. cbn [length app]. rewrite length_app, Hfull.
        replace (S (7 + length new2) - 1) with (length setup + length new2) by lia.
        apply firstn_app_2. }
      assert (Hlog : output ctx3
                     = map infoLine (firstn (length (calls ctx3) - 1)
                                       (setup ++ MainGo.extra_commands))).
      { rewrite Hprefix, Hout2, Hout1, map_app. rewrite Hfull, <- Hsetup, firstn_all.
        reflexivity. }
      assert (Hn : length (calls ctx3) = 8 + length new2).
      { rewrite Hcalls2, Hcalls1. cbn [length]. rewrite length_app. cbn [length]. lia. }
      destruct r2 as [err2 |].
      * unfold bind, Log_Error, ret in H. injection H as <- <-. cbn [calls output].
        pose proof (LoopRun_failed_nonempty _ _ _ _ _ _ _ Hrun2 ltac:(discriminate)) as Hne.
        rewrite Hlog. unfold closingLines.
        replace (Nat.leb (length (calls ctx3)) 1) with false
          by (symmetry; apply Nat.leb_gt; lia).
        replace (Nat.leb (length (calls ctx3)) 8) with false
          by (symmetry; apply Nat.leb_gt; lia).
        reflexivity.
      * unfold bind, Log_Info, ret in H. injection H as <- <-. cbn [calls output].
        rewrite Hlog. reflexivity.
Qed.

(** The log of a run of [main] of main.go (first document), started on a
    fresh context: one Info line for every command of the two tables that
    was registered, in order (update-system has no line of its own), and
    then the closing line: the Info line naming the distribution when
    [main] returns nil, the Error line of the chain when a registration of
    the chain was refused, the Error line of the independent set when one
    of its registrations was refused, and no line when [main] stopped
    before the executors (key file, distribution, update-system).  Nothing
    is written to standard output. *)
Theorem main_log (sdk : Engine) (d sshUsername : string)
    (keyFile : string * option error) (now : string) :
  output (snd (MainGo.main sdk d sshUsername keyFile now emptyContext))
  = (map infoLine
       (firstn (length (calls (snd (MainGo.main sdk d sshUsername keyFile now emptyContext)))
                - 1)
          (MainGo.setup_commands (fst (MainGo.installCmd d)) (MainGo.extraPackagesForDistro d)
           ++ MainGo.extra_commands))
     ++ closingLines d (fst (MainGo.main sdk d sshUsername keyFile now emptyContext))
          (length (calls (snd (MainGo.main sdk d sshUsername keyFile now emptyContext)))))%list.
Proof.
  destruct keyFile as [key [kerr |]]; [reflexivity |].
  destruct (supported d) eqn:Hd; [| rewrite main_unsupported by exact Hd; reflexivity].
  destruct (MainGo.main sdk d sshUsername (key, None) now emptyContext) as [result ctx'] eqn:E.
  exact (main_log_eq sdk d sshUsername key now result ctx' Hd E).
Qed.

Example main_log_refused_at_install_cargo :
  output (snd (MainGo.main (refuseFrom 2) "debian" "ismail" ("KEY", None)
                 "2026-01-01T00:00:00Z" emptyContext))
  = [ LogInfo "install-packages: 'sudo apt-get install -y bpftrace clang cmake curl gcc gdb git less llvm man-db mold pkgconf sysstat zsh g++ linux-tools-virtual ninja-build'";
      LogInfo "install-cargo: 'rm -rf ~/.cargo ~/.rustup && curl -LsSf https://sh.rustup.rs | sh -s -- -y --no-modify-path'";
      LogError "Failed to run base commands: failed to run command 'rm -rf ~/.cargo ~/.rustup && curl -LsSf https://sh.rustup.rs | sh -s -- -y --no-modify-path': ssh: connect to host localhost port 32222: connection refused" ].
Proof. reflexivity. Qed.
